(** * The life-expectancy scraper of [function_app.py], embedded in Rocq

    The Python module has two functions: [parse_age_string], which turns the
    text of an age cell into a float, and [scrape], the HTTP entry point that
    validates the JSON body, drives a remote form through a headless browser,
    locates the results table in the page and turns its rows into records.

    Python values are modelled as the interpreter has them: a [str] is a
    sequence of Unicode code points, a [float] is an IEEE 754 binary64 number
    (the specification of [SpecFloat] at precision 53), a [dict] read with
    [.get] is a finite map, an exception is a value of an error type that
    short-circuits the rest of the function.  The two external libraries are
    not re-implemented: the parsed page is a tree of tags and strings (what
    BeautifulSoup hands back), and the browser is a state machine given as a
    parameter. *)

From Stdlib Require Import List ZArith NArith Lia String Ascii Bool.
From Stdlib Require Import Floats.SpecFloat.
From Equations Require Import Equations.
From stdpp Require Import gmap.
Import ListNotations.

(** ** Strings *)

(** A character is a code point, a string the list of its characters. *)
Abbreviation char := N (only parsing).
Abbreviation str := (list N) (only parsing).

(** An ASCII literal as a Python string. *)
Definition py (s : string) : str := List.map N_of_ascii (list_ascii_of_string s).

Module Unicode.
Local Open Scope N_scope.

(** The code points of the digit zero of every decimal script of the
    Unicode database (category Nd); the nine code points after each are the
    digits one to nine of the same script. *)
Definition decimal_zeros : list N :=
  [48; 1632; 1776; 1984; 2406; 2534; 2662; 2790; 2918; 3046; 3174; 3302;
   3430; 3558; 3664; 3792; 3872; 4160; 4240; 6112; 6160; 6470; 6608; 6784;
   6800; 6992; 7088; 7232; 7248; 42528; 43216; 43264; 43472; 43504; 43600;
   44016; 65296; 66720; 68912; 69734; 69872; 69942; 70096; 70384; 70736;
   70864; 71248; 71360; 71472; 71904; 72016; 72784; 73040; 73120; 92768;
   92864; 93008; 120782; 120792; 120802; 120812; 120822; 123200; 123632;
   125264; 130032].

(** [Py_UNICODE_TODECIMAL]: the value of a decimal digit, if it is one. *)
Definition decimal_value (c : char) : option N :=
  match List.find (fun z => (z <=? c) && (c <? z + 10)) decimal_zeros with
  | Some z => Some (c - z)
  | None => None
  end.

(** The class [\d] of [re] on a [str] pattern. *)
Definition is_decimal (c : char) : bool :=
  match decimal_value c with Some _ => true | None => false end.

(** The class [[a-zA-Z]]. *)
Definition is_ascii_letter (c : char) : bool :=
  ((65 <=? c) && (c <=? 90)) || ((97 <=? c) && (c <=? 122)).

(** [str.isspace] on one character: what [str.strip()] removes. *)
Definition whitespace : list N :=
  [9; 10; 11; 12; 13; 28; 29; 30; 31; 32; 133; 160; 5760; 8192; 8193; 8194;
   8195; 8196; 8197; 8198; 8199; 8200; 8201; 8202; 8232; 8233; 8239; 8287;
   12288].

Definition is_space (c : char) : bool := List.existsb (N.eqb c) whitespace.

(** [Py_ISSPACE] and [Py_ISDIGIT] of the C runtime (ASCII only). *)
Definition is_c_space (c : char) : bool := ((9 <=? c) && (c <=? 13)) || (c =? 32).
Definition is_c_digit (c : char) : bool := (48 <=? c) && (c <=? 57).

(** [Py_TOLOWER]. *)
Definition to_lower (c : char) : char :=
  if (65 <=? c) && (c <=? 90) then c + 32 else c.
End Unicode.
Import Unicode.

(** The longest prefix whose characters satisfy [p], and the rest. *)
Fixpoint span (p : char -> bool) (s : str) : str * str :=
  match s with
  | [] => ([], [])
  | c :: r => if p c then let sr := span p r in (c :: fst sr, snd sr)
              else ([], s)
  end.

Fixpoint drop_while (p : char -> bool) (s : str) : str :=
  match s with
  | [] => []
  | c :: r => if p c then drop_while p r else s
  end.

Definition drop_while_end (p : char -> bool) (s : str) : str :=
  List.rev (drop_while p (List.rev s)).

(** [s.strip()] *)
Definition str_strip (s : str) : str :=
  drop_while_end is_space (drop_while is_space s).

(** [needle in haystack] *)
Fixpoint starts_with (p s : str) : bool :=
  match p, s with
  | [], _ => true
  | _ :: _, [] => false
  | a :: p', b :: s' => N.eqb a b && starts_with p' s'
  end.

Fixpoint str_contains (needle s : str) : bool :=
  starts_with needle s ||
  match s with
  | [] => false
  | _ :: r => str_contains needle r
  end.

(** ** The two regular expressions of [parse_age_string] *)

(** [re.sub(r'[a-zA-Z]', '', s)] *)
Definition re_sub_letters (s : str) : str :=
  List.filter (fun c => negb (is_ascii_letter c)) s.

(** An optional dot: the part [\.?] of the pattern. *)
Definition optional_dot (r : str) : str * str :=
  match r with
  | c :: r2 => if N.eqb c 46 then ([c], r2) else ([], r)
  | [] => ([], [])
  end.

(** One match of [\d+\.?\d*] whose first digit has just been read: the rest of
    the match (greedy digits, an optional dot, greedy digits) and what follows
    it.  Each part is greedy and none can make a later part fail, so the
    engine never backtracks. *)
Definition number_tail (r : str) : str * str :=
  let ds := span is_decimal r in
  let dot := optional_dot (snd ds) in
  let fs := span is_decimal (snd dot) in
  (fst ds ++ fst dot ++ fst fs, snd fs).

Lemma span_snd_length p s : length (snd (span p s)) <= length s.
Proof.
  induction s as [|c r IH]; simpl; [lia|].
  destruct (p c); simpl; lia.
Qed.

Lemma optional_dot_length r : length (snd (optional_dot r)) <= length r.
Proof.
  destruct r as [|c r]; simpl; [lia|].
  destruct (N.eqb c 46); simpl; lia.
Qed.

Lemma number_tail_length r : length (snd (number_tail r)) <= length r.
Proof.
  unfold number_tail. cbn [snd].
  pose proof (span_snd_length is_decimal r).
  pose proof (optional_dot_length (snd (span is_decimal r))).
  pose proof (span_snd_length is_decimal
                (snd (optional_dot (snd (span is_decimal r))))).
  lia.
Qed.

(** [re.findall] with the pattern [\d+\.?\d*]: scan from the left; where a match starts
    take it and go on after it, elsewhere move one character on. *)
Equations? re_findall_numbers (s : str) : list str by wf (length s) lt :=
  re_findall_numbers [] := [];
  re_findall_numbers (c :: r) with is_decimal c => {
    | true := (c :: fst (number_tail r)) :: re_findall_numbers (snd (number_tail r));
    | false := re_findall_numbers r }.
Proof.
  all: change (length (c :: r)) with (S (length r)).
  - pose proof (number_tail_length r). lia.
  - lia.
Qed.

(** ** Floats

    A Python [float] is a binary64 number; [SpecFloat] gives the IEEE 754
    operations on it, rounding to nearest, ties to even. *)

Module Float.
Definition float := spec_float.

Definition prec : Z := 53.
Definition emax : Z := 1024.

Definition add : float -> float -> float := SFadd prec emax.
Definition div : float -> float -> float := SFdiv prec emax.
Definition leb : float -> float -> bool := SFleb.

(** The integer [z] as a float. *)
Definition of_Z (z : Z) : float := binary_normalize prec emax z 0 false.

(** The float nearest to [m * 10 ^ e], for a natural number [m], with the
    sign [neg]: what the runtime's [strtod] returns for a decimal literal.
    Out of range the result is an infinity, never an error. *)
Definition of_decimal (neg : bool) (m : Z) (e : Z) : float :=
  match m with
  | Zpos p =>
      if (0 <=? e)%Z
      then binary_normalize prec emax (cond_Zopp neg (Zpos p * 10 ^ e)) 0 neg
      else div (S754_finite neg p 0) (S754_finite false (Z.to_pos (10 ^ (- e))) 0)
  | _ => S754_zero neg
  end.

Definition is_finite (x : float) : bool :=
  match x with
  | S754_zero _ | S754_finite _ _ _ => true
  | _ => false
  end.

Definition zero : float := S754_zero false.

(** [0.0 <= x] *)
Definition is_nonneg (x : float) : bool := leb zero x.

(** [x < y] *)
Definition ltb : float -> float -> bool := SFltb.
End Float.
Import Float.

(** ** The builtin [float] on a string

    [float(s)] folds the string to ASCII, checks and removes the underscores
    between digits, strips blanks, and reads an optionally signed [inf],
    [infinity] or [nan], or a decimal literal with an optional exponent.
    [None] stands for the [ValueError] it raises on anything else. *)

(** The ASCII character that stands for [c] in the buffer the number parsers
    read: Unicode blanks become a space, Unicode decimal digits the ASCII
    digit of the same value, any other character outside ASCII a question
    mark (which no parser accepts). *)
Definition ascii_fold (c : char) : char :=
  if (c <? 128)%N then c
  else if is_space c then 32%N
  else match decimal_value c with
       | Some d => (48 + d)%N
       | None => 63%N
       end.

(** Underscores are dropped; each must stand between two digits. *)
Fixpoint drop_underscores (prev : char) (s : str) : option str :=
  match s with
  | [] => if N.eqb prev 95 then None else Some []
  | c :: r =>
      if N.eqb c 95 then
        if is_c_digit prev then drop_underscores c r else None
      else if N.eqb prev 95 && negb (is_c_digit c) then None
      else option_map (cons c) (drop_underscores c r)
  end.

Definition c_strip (s : str) : str :=
  drop_while_end is_c_space (drop_while is_c_space s).

(** A leading sign: [true] for minus. *)
Definition split_sign (s : str) : bool * str :=
  match s with
  | c :: r => if N.eqb c 45 then (true, r)
              else if N.eqb c 43 then (false, r)
              else (false, s)
  | [] => (false, [])
  end.

(** The number written by a run of ASCII digits. *)
Definition digits_value (ds : str) : Z :=
  List.fold_left (fun acc c => (10 * acc + Z.of_N (c - 48))%Z) ds 0%Z.

(** [_Py_parse_inf_or_nan]: the value and the unread rest, when the text
    starts (after a sign) with [inf], [infinity] or [nan] in any case. *)
Definition parse_inf_or_nan (s : str) : option (float * str) :=
  let (neg, r) := split_sign s in
  if starts_with (py "inf") (List.map to_lower r) then
    let r3 := List.skipn 3 r in
    if starts_with (py "inity") (List.map to_lower r3)
    then Some (S754_infinity neg, List.skipn 5 r3)
    else Some (S754_infinity neg, r3)
  else if starts_with (py "nan") (List.map to_lower r) then
    Some (S754_nan, List.skipn 3 r)
  else None.

(** The exponent part, which must reach the end of the text: nothing, or
    [e] or [E], an optional sign and at least one digit. *)
Definition parse_exponent (s : str) : option Z :=
  match s with
  | [] => Some 0%Z
  | c :: r =>
      if N.eqb c 101 || N.eqb c 69 then
        let (neg, ds) := split_sign r in
        match ds with
        | [] => None
        | _ :: _ => if List.forallb is_c_digit ds
                    then Some (cond_Zopp neg (digits_value ds))
                    else None
        end
      else None
  end.

(** A decimal literal: sign, digits, an optional dot and digits (one digit at
    least in all), exponent. *)
Definition parse_decimal (s : str) : option float :=
  let (neg, r) := split_sign s in
  let ip := span is_c_digit r in
  let dot := optional_dot (snd ip) in
  let fp := span is_c_digit (snd dot) in
  match fst ip ++ fst fp with
  | [] => None
  | _ :: _ =>
      match parse_exponent (snd fp) with
      | Some e => Some (of_decimal neg (digits_value (fst ip ++ fst fp))
                                   (e - Z.of_nat (length (fst fp))))
      | None => None
      end
  end.

Definition float_from_string_inner (s : str) : option float :=
  let t := c_strip s in
  match parse_inf_or_nan t with
  | Some (x, []) => Some x
  | Some (_, _ :: _) => None
  | None => parse_decimal t
  end.

Definition py_float (s : str) : option float :=
  match drop_underscores 0%N (List.map ascii_fold s) with
  | Some t => float_from_string_inner t
  | None => None
  end.

(** ** Exceptions

    A call either returns a value or raises; [bind] runs the rest of a
    block only after a return. *)

Inductive message :=
| Text (text : str)
| CouldNotConvertFloat (arg : str)   (* the ValueError of float(arg) *)
| InvalidIntLiteral (arg : str)      (* the ValueError of int(arg) *)
| StrTooManyDigits                   (* str() of an integer of more than 4300 digits *)
| JsonDecodeError.                   (* req.get_json() on a body it cannot decode *)

Inductive exn :=
| ValueError (m : message)
| AttributeError                     (* [.get] on a value that is not a dict *)
| RecursionError                     (* JSON nested deeper than the interpreter allows *)
| PlaywrightError (text : str).      (* any exception of the browser library *)

Inductive result (A : Type) :=
| Ok (a : A)
| Raise (e : exn).
Arguments Ok {A} a.
Arguments Raise {A} e.

Definition bind {A B} (r : result A) (k : A -> result B) : result B :=
  match r with
  | Ok a => k a
  | Raise e => Raise e
  end.

Declare Scope result_scope.
Delimit Scope result_scope with result.
Notation "'let*' x ':=' r 'in' k" := (bind r (fun x => k))
  (at level 10, x pattern, r at level 100, k at level 200) : result_scope.
Local Open Scope result_scope.

(** [float(s)] as a call. *)
Definition float_of (s : str) : result float :=
  match py_float s with
  | Some x => Ok x
  | None => Raise (ValueError (CouldNotConvertFloat s))
  end.

(** ** [parse_age_string] *)

(** The literal [12.0]. *)
Definition twelve : float := S754_finite false 6755399441055744 (-49).

Definition parse_age_string (age_str : str) : result (option float) :=
  let cleaned_str := str_strip (re_sub_letters age_str) in
  let parts := re_findall_numbers cleaned_str in
  match parts with
  | [p0; p1] =>                                   (* len(parts) == 2 *)
      let* x := float_of p0 in
      let* y := float_of p1 in
      Ok (Some (add x (div y twelve)))
  | [p0] =>                                       (* len(parts) == 1 *)
      let* x := float_of p0 in
      Ok (Some x)
  | _ => Ok None
  end.

(** ** The parsed page

    What [BeautifulSoup(content, 'html.parser')] returns: a tree of tags whose
    leaves are strings.  [Comment] stands for the strings that [get_text]
    leaves out (comments, declarations, processing instructions). *)

#[warnings="-register-all"]
Inductive node :=
| NavigableString (s : str)
| Comment (s : str)
| Tag (name : str) (contents : list node).

(** [tag.descendants]: every node below [n], in document order. *)
Fixpoint descendants (n : node) : list node :=
  match n with
  | Tag _ contents => List.flat_map (fun k => k :: descendants k) contents
  | _ => []
  end.

Definition str_eqb (a b : str) : bool := bool_decide (a = b).

Definition is_tag (name : str) (n : node) : bool :=
  match n with
  | Tag t _ => str_eqb t name
  | _ => false
  end.

(** [tag.find_all(name)] *)
Definition find_all (name : str) (n : node) : list node :=
  List.filter (is_tag name) (descendants n).

(** [tag.get_text()], also [tag.text] *)
Definition get_text (n : node) : str :=
  List.flat_map (fun k => match k with NavigableString s => s | _ => [] end)
                (descendants n).

(** ** Locating the results table *)

Definition marker : str := py "At Age".

Definition msg_no_table : str :=
  py "Could not find the results table on the SSA page. The page structure may have changed.".

Definition msg_no_initial : str :=
  py "Failed to parse initial life expectancy data from the table.".

(** The loop over [all_tables]: the first table whose text has the marker. *)
Fixpoint first_marked (all_tables : list node) : option node :=
  match all_tables with
  | [] => None
  | table :: rest =>
      if str_contains marker (get_text table) then Some table
      else first_marked rest
  end.

Definition locate_results_table (soup : node) : result node :=
  match first_marked (find_all (py "table") soup) with
  | Some results_table => Ok results_table
  | None => Raise (ValueError (Text msg_no_table))
  end.

(** ** Extracting the records *)

Record point := { atAge : float; additionalLE : float; totalLE : float }.

(** The dictionary [data]; the empty dictionary that [initial] starts as is
    [None]. *)
Record data := { initial : option point; future : list point }.

(** The state of the loop over the rows: [data] and [is_first_row]. *)
Definition loop_state := (data * bool)%type.

Definition cols (row : node) : list str :=
  List.map (fun col => str_strip (get_text col)) (find_all (py "td") row).

(** One turn of the loop. *)
Definition row_step (st : loop_state) (row : node) : result loop_state :=
  let (d, is_first_row) := st in
  match cols row with
  | [age_str; additional_le_str; total_le_str] =>
      let* parsed_age := parse_age_string age_str in
      match parsed_age with
      | None => Ok st                                          (* continue *)
      | Some a =>
          let* al := float_of additional_le_str in
          let* tl := float_of total_le_str in
          let p := {| atAge := a; additionalLE := al; totalLE := tl |} in
          if is_first_row
          then Ok ({| initial := Some p; future := future d |}, false)
          else Ok ({| initial := initial d; future := future d ++ [p] |},
                   is_first_row)
      end
  | _ => Ok st
  end.

Fixpoint rows_loop (rows : list node) (st : loop_state) : result loop_state :=
  match rows with
  | [] => Ok st
  | row :: rest => let* st' := row_step st row in rows_loop rest st'
  end.

(** Section 4 of [scrape], from the list [rows] on: the loop over
    [rows[1:]], then the check that [initial] was set. *)
Definition extract_from_rows (rows : list node) : result data :=
  let* st := rows_loop (List.tl rows)
                       ({| initial := None; future := [] |}, true) in
  match initial (fst st) with
  | None => Raise (ValueError (Text msg_no_initial))
  | Some _ => Ok (fst st)
  end.

Definition extract_records (results_table : node) : result data :=
  extract_from_rows (find_all (py "tr") results_table).

(** Sections 3 and 4 of [scrape]: from the parsed page to [data]. *)
Definition parse_page (soup : node) : result data :=
  let* results_table := locate_results_table soup in
  extract_records results_table.

(** ** The request

    A request is what [req.get_json()] does with its body.  It raises
    [ValueError] on a body it cannot decode (text that is not JSON, bytes
    that are not UTF-8, an integer literal of more than 4300 digits), it
    raises [RecursionError] on JSON nested too deep, and otherwise it returns
    the decoded value; only a JSON object is a [dict].  The code reads four
    members of the object and uses each only through [str()]. *)

Inductive jvalue :=
| JNone                                 (* null *)
| JBool (b : bool)
| JInt (z : Z)
| JStr (s : str)
| JOther (c : char) (shown : str).      (* a float, a list or an object, with
                                           its [str()], which is not empty *)

Inductive request_body :=
| Undecodable                           (* get_json raises ValueError *)
| TooDeep                               (* get_json raises RecursionError *)
| JsonObject (members : gmap str jvalue)
| JsonOther.                            (* JSON, but not an object *)

Definition inspect {A} (a : A) : {b : A | a = b} := exist _ a eq_refl.

(** The decimal digits of a natural number, most significant first. *)
Equations? digits_of (n : N) : str by wf (N.to_nat n) lt :=
  digits_of n with inspect (n <? 10)%N => {
    | exist _ true _ := [(48 + n)%N];
    | exist _ false H := digits_of (n / 10) ++ [(48 + n mod 10)%N] }.
Proof.
  apply N.ltb_ge in H.
  pose proof (N.div_lt n 10 ltac:(lia) ltac:(lia)). lia.
Qed.

(** [str(z)] for an integer *)
Definition str_of_int (z : Z) : str :=
  if (z <? 0)%Z then 45%N :: digits_of (Z.abs_N z) else digits_of (Z.abs_N z).

(** The number of decimal digits of an integer. *)
Definition decimal_length (z : Z) : nat := length (digits_of (Z.abs_N z)).

(** [str(z)] as a call: it raises on an integer of more than 4300 digits. *)
Definition str_of_int_call (z : Z) : result str :=
  if (4300 <? decimal_length z)%nat
  then Raise (ValueError StrTooManyDigits)
  else Ok (str_of_int z).

(** The text [str(v)] returns. *)
Definition py_str (v : jvalue) : str :=
  match v with
  | JNone => py "None"
  | JBool true => py "True"
  | JBool false => py "False"
  | JInt z => str_of_int z
  | JStr s => s
  | JOther c shown => c :: shown
  end.

(** [str(v)] as a call. *)
Definition str_call (v : jvalue) : result str :=
  match v with
  | JInt z => str_of_int_call z
  | _ => Ok (py_str v)
  end.

(** [d.get(key)]: [None] when the key is absent. *)
Definition dict_get (d : gmap str jvalue) (key : str) : jvalue :=
  match d !! key with
  | Some v => v
  | None => JNone
  end.

(** The builtin [int] on a string: blanks, a sign, digits with single
    underscores between them, blanks; at most 4300 digits. *)
Definition py_int (s : str) : option Z :=
  let (neg, r) := split_sign (drop_while is_c_space (List.map ascii_fold s)) in
  match drop_underscores 0%N (drop_while_end is_c_space r) with
  | Some (c :: ds) =>
      if List.forallb is_c_digit (c :: ds) && (length (c :: ds) <=? 4300)%nat
      then Some (cond_Zopp neg (digits_value (c :: ds)))
      else None
  | _ => None
  end.

Definition int_of (s : str) : result Z :=
  match py_int s with
  | Some z => Ok z
  | None => Raise (ValueError (InvalidIntLiteral s))
  end.

(** The [try] block of section 1. *)
Definition read_fields (req : request_body) : result (str * str * str * str) :=
  match req with
  | Undecodable => Raise (ValueError JsonDecodeError)
  | TooDeep => Raise RecursionError
  | JsonOther => Raise AttributeError
  | JsonObject req_body =>
      let* month_from_react := str_call (dict_get req_body (py "month")) in
      let* day := str_call (dict_get req_body (py "day")) in
      let* year := str_call (dict_get req_body (py "year")) in
      let* sex := str_call (dict_get req_body (py "sex")) in
      Ok (month_from_react, day, year, sex)
  end.

(** Truth of a string: it is not empty. *)
Definition truthy (s : str) : bool :=
  match s with [] => false | _ :: _ => true end.

(** ** The browser *)

Inductive call :=
| Launch                                        (* p.chromium.launch(...) *)
| NewPage
| Goto (url : str) (timeout : Z)
| WaitForSelector (selector : str) (timeout : Z)
| SelectOption (selector : str) (value : str)
| WaitForTimeout (ms : Z)
| Click (selector : str)
| WaitForLoadState (state : str) (timeout : Z)
| Close.

(** [select[name=...]] with the name between double quotes. *)
Definition select_named (name : string) : str :=
  py "select[name=" ++ [34%N] ++ py name ++ [34%N] ++ py "]".

Definition submit_button : str :=
  py "input[type=" ++ [34%N] ++ py "submit" ++ [34%N] ++
  py "][value=" ++ [34%N] ++ py "Submit" ++ [34%N] ++ py "]".

(** The calls of section 2 up to the result page, in program order. *)
Definition form_calls (sex month_for_ssa day year : str) : list call :=
  [ Launch; NewPage;
    Goto (py "https://www.ssa.gov/cgi-bin/longevity.cgi") 60000;
    WaitForSelector (select_named "sex") 30000;
    SelectOption (select_named "sex") sex;
    WaitForSelector (select_named "monthofbirth") 30000;
    SelectOption (select_named "monthofbirth") month_for_ssa;
    WaitForTimeout 500;
    WaitForSelector (select_named "dayofbirth") 30000;
    SelectOption (select_named "dayofbirth") day;
    WaitForSelector (select_named "yearofbirth") 30000;
    SelectOption (select_named "yearofbirth") year;
    Click submit_button;
    WaitForLoadState (py "networkidle") 60000 ].

(** ** The response *)

Inductive response_body :=
| InvalidRequestBody             (* Invalid request body. Please pass JSON ... *)
| MissingParameters              (* Missing one or more required parameters ... *)
| InternalError (e : exn)        (* An internal error occurred: str(e) *)
| JsonData (d : data).           (* json.dumps(data) *)

Record HttpResponse := { status_code : Z; body : response_body }.

(** The month the form is given: [str(int(month_from_react) - 1)]. *)
Definition month_for_ssa (month_from_react : str) : result str :=
  let* m := int_of month_from_react in
  str_of_int_call (m - 1).

(** The two ways out of the [try] block of sections 2 to 5: the data with
    status 200, or the handler of [except Exception] with status 500. *)
Definition respond (r : result data) : HttpResponse :=
  match r with
  | Ok d => {| status_code := 200; body := JsonData d |}
  | Raise e => {| status_code := 500; body := InternalError e |}
  end.

Section Scrape.
(** The state of the browser, how a call changes it or fails, the text of
    the page, and the HTML parser. *)
Context {browser : Type}.
Variable perform : call -> browser -> result browser.
Variable page_content : browser -> result str.
Variable html_parser : str -> node.

Fixpoint run_calls (cs : list call) (b : browser) : result browser :=
  match cs with
  | [] => Ok b
  | c :: rest => let* b' := perform c b in run_calls rest b'
  end.

(** Section 2: fill the form, submit, read the page. *)
Definition fetch_results_page (sex month_for_ssa day year : str) (b : browser)
  : result str :=
  let* b1 := run_calls (form_calls sex month_for_ssa day year) b in
  let* content := page_content b1 in
  let* _ := perform Close b1 in
  Ok content.

(** [scrape]; a [Raise] is an exception that leaves the function. *)
Definition scrape (req : request_body) (b : browser) : result HttpResponse :=
  match read_fields req with
  | Raise (ValueError _) | Raise AttributeError =>
      Ok {| status_code := 400; body := InvalidRequestBody |}
  | Raise e => Raise e
  | Ok (month_from_react, day, year, sex) =>
      if negb (truthy month_from_react && truthy day && truthy year && truthy sex)
      then Ok {| status_code := 400; body := MissingParameters |}
      else
        let* month_for_ssa := month_for_ssa month_from_react in
        Ok (respond
              (let* content :=
                 fetch_results_page sex month_for_ssa day year b in
               parse_page (html_parser content)))
  end.
End Scrape.

(** ** What the statements below speak of *)

(** The numeric substrings that [parse_age_string] finds in its input. *)
Definition numeric_substrings (age_str : str) : list str :=
  re_findall_numbers (str_strip (re_sub_letters age_str)).

(** The digits of a numeric substring before and after its dot. *)
Definition int_digits (a : str) : str := fst (span is_decimal a).

Definition frac_digits (a : str) : str :=
  fst (span is_decimal (snd (optional_dot (snd (span is_decimal a))))).

(** The natural number written by a run of decimal digits of any script. *)
Definition unicode_digits_value (ds : str) : Z :=
  List.fold_left
    (fun acc c => (10 * acc + Z.of_N (default 0%N (decimal_value c)))%Z) ds 0%Z.

(** The value a numeric substring denotes: the float nearest to the decimal
    number it writes. *)
Definition number_value (a : str) : float :=
  of_decimal false (unicode_digits_value (int_digits a ++ frac_digits a))
             (0 - Z.of_nat (length (frac_digits a))).

(** The shape of a match of the pattern: digits (one at least), then nothing,
    or a dot and digits. *)
Definition number_shaped (a : str) : Prop :=
  exists ip dot fp,
    a = ip ++ dot ++ fp /\ ip <> [] /\
    List.forallb is_decimal ip = true /\ List.forallb is_decimal fp = true /\
    ((dot = [] /\ fp = []) \/ dot = [46%N]).

(** The characters of the folded text of a number: ASCII digits and dots. *)
Definition plain (c : char) : bool := is_c_digit c || N.eqb c 46.

(** A table carries the marker. *)
Definition marked (t : node) : bool := str_contains marker (get_text t).

(** Characters that no match of the pattern can contain or start with. *)
Definition inert (c : N) : bool := negb (is_decimal c) && negb (N.eqb c 46).

(** The float [x] is exactly the integer [n]. *)
Definition is_integer (x : float) (n : Z) : Prop :=
  match x with
  | S754_zero _ => n = 0%Z
  | S754_finite s m e =>
      if (0 <=? e)%Z then n = (cond_Zopp s (Zpos m) * 2 ^ e)%Z
      else cond_Zopp s (Zpos m) = (n * 2 ^ (- e))%Z
  | _ => False
  end.

(** The four members of the request body that [scrape] reads. *)
Definition required_keys : list str :=
  [py "month"; py "day"; py "year"; py "sex"].

(** [str(v)] returns: [v] is not an integer of more than 4300 digits. *)
Definition readable (v : jvalue) : bool :=
  match v with
  | JInt z => (decimal_length z <=? 4300)%nat
  | _ => true
  end.

(** [str()] returns for each of the four members. *)
Definition members_readable (members : gmap str jvalue) : bool :=
  List.forallb (fun key => readable (dict_get members key)) required_keys.

(** A browser that lets every call through but the selection on the month
    control, which it refuses, reporting the value it was given. *)
Definition month_spy : call -> unit -> result unit :=
  fun c _ =>
    match c with
    | SelectOption selector value =>
        if str_eqb selector (select_named "monthofbirth")
        then Raise (PlaywrightError value)
        else Ok tt
    | _ => Ok tt
    end.

(** A browser whose call number [n] (from 0) fails, as when a control of the
    form never shows up. *)
Definition times_out_at (n : nat) : call -> nat -> result nat :=
  fun _ k => if Nat.eqb k n
             then Raise (PlaywrightError (py "Timeout 30000ms exceeded."))
             else Ok (S k).

(** A decimal digit of any script as the ASCII digit of the same value;
    other characters as they are. *)
Definition to_ascii_digit (c : N) : N :=
  match decimal_value c with
  | Some d => (48 + d)%N
  | None => c
  end.

(** What a row of the table yields on its own: the point of a row that
    parses (three cells, an age that normalizes, two cells that [float]
    accepts) ... *)
Definition row_point (row : node) : option point :=
  match cols row with
  | [age_str; additional_le_str; total_le_str] =>
      match parse_age_string age_str,
            py_float additional_le_str, py_float total_le_str with
      | Ok (Some a), Some al, Some tl =>
          Some {| atAge := a; additionalLE := al; totalLE := tl |}
      | _, _, _ => None
      end
  | _ => None
  end.

(** ... and, for a row with three cells whose age normalizes, the first of
    its two other cells that [float] rejects. *)
Definition bad_cell (row : node) : option str :=
  match cols row with
  | [age_str; additional_le_str; total_le_str] =>
      match parse_age_string age_str with
      | Ok (Some _) =>
          match py_float additional_le_str, py_float total_le_str with
          | None, _ => Some additional_le_str
          | Some _, None => Some total_le_str
          | Some _, Some _ => None
          end
      | _ => None
      end
  | _ => None
  end.

(** The points of the rows that parse, in row order. *)
Definition parsed_points (rows : list node) : list point :=
  List.flat_map (fun row => match row_point row with
                            | Some p => [p]
                            | None => []
                            end) rows.

Definition has_three_cols (row : node) : bool :=
  Nat.eqb (length (cols row)) 3.

(** What the loop does with a point. *)
Definition record_point (st : loop_state) (p : point) : loop_state :=
  let (d, is_first_row) := st in
  if is_first_row
  then ({| initial := Some p; future := future d |}, false)
  else ({| initial := initial d; future := future d ++ [p] |}, is_first_row).

(** The values the calls select on the control [selector], in order. *)
Definition selected_values (selector : str) (calls : list call) : list str :=
  List.flat_map (fun c => match c with
                          | SelectOption s v => if str_eqb s selector then [v] else []
                          | _ => []
                          end) calls.

(** The invariant the data model asks of a result. *)
Definition field_ok (x : float) : bool := is_finite x && is_nonneg x.

Definition point_ok (p : point) : bool :=
  field_ok (atAge p) && field_ok (additionalLE p) && field_ok (totalLE p).

Fixpoint strictly_increasing (l : list float) : bool :=
  match l with
  | x :: (y :: _) as rest => ltb x y && strictly_increasing rest
  | _ => true
  end.

Definition points_of (d : data) : list point :=
  match initial d with
  | Some p => p :: future d
  | None => future d
  end.

(** ** Sample pages *)

Definition td (s : string) : node := Tag (py "td") [NavigableString (py s)].
Definition th (s : string) : node := Tag (py "th") [NavigableString (py s)].
Definition tr (cells : list node) : node := Tag (py "tr") cells.
Definition table (rows : list node) : node := Tag (py "table") rows.
Definition document (contents : list node) : node :=
  Tag (py "[document]") contents.

Definition header_row : node :=
  tr [th "At Age"; th "Additional Life Expectancy"; th "Estimated Total Years"].

(** A results table as the remote page renders it: a header, the row of
    the current age, a divider of one cell, later ages with footnote
    letters, and a row whose age is not a number. *)
Definition sample_results : node :=
  table [ header_row;
          tr [td "65 and 3 months"; td "19.6"; td "84.9"];
          tr [td "Future ages"];
          tr [td "67a"; td "18.2"; td "85.2"];
          tr [td "n/a"; td "17.0"; td "86.0"];
          tr [td "70b"; td "16.0"; td "86.0"] ].

(** The same with a life expectancy that is not a number. *)
Definition corrupt_results : node :=
  table [ header_row;
          tr [td "65 and 3 months"; td "19.6"; td "84.9"];
          tr [td "67a"; td "18,2"; td "85.2"];
          tr [td "70b"; td "16.0"; td "86.0"] ].

(** A table that parses although its numbers make no sense. *)
Definition unruly_results : node :=
  table [ header_row;
          tr [td "70"; td "-1.5"; td "nan"];
          tr [td "65"; td "inf"; td "1"];
          tr [td "60"; td "2"; td "3"] ].

Definition navigation : node := table [tr [td "Home"; td "Benefits"]].
Definition footer : node := table [tr [td "Privacy"; td "Contact"]].

Definition sample_page : node :=
  document [navigation; sample_results; footer].

Definition page_without_results : node :=
  document [navigation; Tag (py "p") [NavigableString (py "Service unavailable")];
            footer].

(** A browser that only records the calls made on it.  *)
Definition recording : call -> list call -> result (list call) :=
  fun c log => Ok (log ++ [c]).

(** The request of the profile born on 15 March 1960, female. *)
Definition sample_request : request_body :=
  JsonObject (<[py "month" := JInt 3]>
              (<[py "day" := JInt 15]>
               (<[py "year" := JInt 1960]>
                (<[py "sex" := JStr (py "f")]> ∅)))).

(** The same without its month. *)
Definition request_without_month : request_body :=
  JsonObject (<[py "day" := JInt 15]>
              (<[py "year" := JInt 1960]>
               (<[py "sex" := JStr (py "f")]> ∅))).

(** * Properties *)

(** A [Forall] over a list that computes: evaluate the list, then each
    instance on its own. *)
Ltac forall_by_evaluation :=
  match goal with
  | |- List.Forall ?P ?l =>
      let l' := eval vm_compute in l in
      replace l with l' by (vm_compute; reflexivity)
  end;
  repeat (constructor; [vm_compute; reflexivity|]); constructor.


(** ** Lists of characters *)

Lemma span_app p (l1 l2 : str) :
  List.forallb p l1 = true ->
  match l2 with [] => True | c :: _ => p c = false end ->
  span p (l1 ++ l2) = (l1, l2).
Proof.
  intros H1 H2. induction l1 as [|c l1 IH]; simpl in *.
  - destruct l2 as [|c r]; simpl; [reflexivity|]. now rewrite H2.
  - apply andb_true_iff in H1 as [Hc H1]. rewrite Hc, (IH H1). reflexivity.
Qed.

Lemma span_spec p (s : str) :
  s = fst (span p s) ++ snd (span p s) /\
  List.forallb p (fst (span p s)) = true /\
  match snd (span p s) with [] => True | c :: _ => p c = false end.
Proof.
  induction s as [|c r (E & A & B)]; simpl; [auto|].
  destruct (p c) eqn:Hc; simpl.
  - rewrite Hc, A. repeat split; [now f_equal | exact B].
  - repeat split. exact Hc.
Qed.

Lemma drop_while_none p (s : str) :
  List.forallb (fun c => negb (p c)) s = true -> drop_while p s = s.
Proof.
  destruct s as [|c r]; simpl; [reflexivity|].
  intros H. apply andb_true_iff in H as [Hc _].
  apply negb_true_iff in Hc. now rewrite Hc.
Qed.

Lemma forallb_rev {A} (f : A -> bool) (l : list A) :
  List.forallb f (List.rev l) = List.forallb f l.
Proof.
  induction l as [|a l IH]; simpl; [reflexivity|].
  rewrite List.forallb_app, IH. simpl. rewrite andb_true_r. apply andb_comm.
Qed.

Lemma drop_while_end_none p (s : str) :
  List.forallb (fun c => negb (p c)) s = true -> drop_while_end p s = s.
Proof.
  intros H. unfold drop_while_end.
  rewrite drop_while_none by now rewrite forallb_rev.
  apply List.rev_involutive.
Qed.

Lemma forallb_impl {A} (f g : A -> bool) (l : list A) :
  (forall a, f a = true -> g a = true) ->
  List.forallb f l = true -> List.forallb g l = true.
Proof.
  intros Hfg. induction l as [|a l IH]; simpl; [reflexivity|].
  intros H. apply andb_true_iff in H as [Ha Hl].
  now rewrite (Hfg _ Ha), (IH Hl).
Qed.

(** ** The sign of a rounded result *)

Module SignFacts.
Local Open Scope Z_scope.

(** [x] is a number (not a NaN) whose sign bit is [s]. *)
Definition has_sign (s : bool) (x : float) : Prop :=
  match x with
  | S754_zero s' | S754_infinity s' | S754_finite s' _ _ => s' = s
  | S754_nan => False
  end.

Lemma shr_1_nonneg mrs : 0 <= shr_m mrs -> 0 <= shr_m (shr_1 mrs).
Proof.
  destruct mrs as [m r s]. destruct m as [|[p|p|]|[p|p|]]; simpl; lia.
Qed.

Lemma iter_pos_invariant {A} (P : A -> Prop) (f : A -> A) :
  (forall x, P x -> P (f x)) -> forall p x, P x -> P (SpecFloat.iter_pos f p x).
Proof.
  intros Hf. induction p as [p IH|p IH|]; intros x Hx; simpl; auto.
Qed.

Lemma shr_nonneg mrs e n : 0 <= shr_m mrs -> 0 <= shr_m (fst (shr mrs e n)).
Proof.
  intros H. destruct n as [|p|p]; simpl; trivial.
  apply (iter_pos_invariant (fun r => 0 <= shr_m r)); trivial.
  apply shr_1_nonneg.
Qed.

Lemma shr_fexp_nonneg pr em m e l :
  0 <= m -> 0 <= shr_m (fst (shr_fexp pr em m e l)).
Proof.
  intros H. unfold shr_fexp. apply shr_nonneg.
  destruct l as [|[]]; exact H.
Qed.

Lemma round_nearest_even_nonneg m l : 0 <= m -> 0 <= round_nearest_even m l.
Proof.
  intros H. destruct l as [|[]]; simpl; try lia.
  destruct (Z.even m); lia.
Qed.

Lemma binary_round_aux_sign pr em s m e l :
  0 <= m -> has_sign s (binary_round_aux pr em s m e l).
Proof.
  intros H. unfold binary_round_aux.
  pose proof (shr_fexp_nonneg pr em m e l H) as H1.
  destruct (shr_fexp pr em m e l) as [mrs' e']. simpl in H1.
  pose proof (shr_fexp_nonneg pr em
                (round_nearest_even (shr_m mrs') (loc_of_shr_record mrs'))
                e' loc_Exact
                (round_nearest_even_nonneg _ _ H1)) as H2.
  destruct (shr_fexp pr em _ e' loc_Exact) as [mrs'' e'']. simpl in H2.
  destruct (shr_m mrs'') as [|q|q]; simpl; try reflexivity; [|lia].
  destruct (e'' <=? em - pr); reflexivity.
Qed.

Lemma binary_round_sign pr em s p e : has_sign s (binary_round pr em s p e).
Proof.
  unfold binary_round. destruct (shl_align _ _ _) as [mz ez].
  apply binary_round_aux_sign. lia.
Qed.

Lemma of_decimal_sign m e : 0 <= m -> has_sign false (of_decimal false m e).
Proof.
  intros H. unfold of_decimal. destruct m as [|p|p]; try reflexivity.
  destruct (0 <=? e).
  - simpl cond_Zopp.
    pose proof (Z.pow_nonneg 10 e ltac:(lia)) as Hp.
    destruct (Z.pos p * 10 ^ e) as [|q|q] eqn:E; simpl; try reflexivity.
    + apply binary_round_sign.
    + lia.
  - unfold div, SFdiv, SFdiv_core_binary.
    set (m' := match _ with Z0 => _ | Zpos _ => _ | Zneg _ => _ end).
    assert (Hm : 0 <= m').
    { subst m'. destruct (_ - _ - _); try lia. apply Z.shiftl_nonneg. lia. }
    pose proof (Z.div_pos m' (Z.pos (Z.to_pos (10 ^ (- e)))) Hm ltac:(lia)) as Hq.
    unfold Z.div in Hq.
    destruct (Z.div_eucl m' _) as [q r].
    apply binary_round_aux_sign. exact Hq.
Qed.

Lemma div_twelve_sign y : has_sign false y -> has_sign false (div y twelve).
Proof.
  destruct y as [s|s| |s m e]; simpl; intros H; subst;
    try reflexivity; try contradiction.
  unfold div, twelve, SFdiv, SFdiv_core_binary.
  set (m' := match _ with Z0 => _ | Zpos _ => _ | Zneg _ => _ end).
  assert (Hm : 0 <= m').
  { subst m'. destruct (_ - _ - _); try lia. apply Z.shiftl_nonneg. lia. }
  pose proof (Z.div_pos m' 6755399441055744 Hm ltac:(lia)) as Hq.
  unfold Z.div in Hq.
  destruct (Z.div_eucl m' _) as [q r].
  apply binary_round_aux_sign. exact Hq.
Qed.

Lemma add_sign x y :
  has_sign false x -> has_sign false y -> has_sign false (add x y).
Proof.
  destruct x as [s|s| |s m e], y as [s'|s'| |s' m' e']; simpl;
    intros Hx Hy; subst; try reflexivity; try contradiction.
  unfold add, SFadd, binary_normalize. simpl cond_Zopp.
  destruct (shl_align m e _) as [a ?], (shl_align m' e' _) as [b ?].
  simpl fst. simpl Z.add. apply binary_round_sign.
Qed.

Lemma has_sign_nonneg x : has_sign false x -> is_nonneg x = true.
Proof.
  destruct x as [s|s| |s m e]; simpl; intros H; subst;
    try reflexivity; contradiction.
Qed.
End SignFacts.

(** ** Decimal digits and the ASCII buffer *)

Module DigitFacts.
Local Open Scope N_scope.

Lemma decimal_value_bound c d : decimal_value c = Some d -> d < 10.
Proof.
  unfold decimal_value.
  destruct (List.find _ decimal_zeros) as [z|] eqn:F; [|discriminate].
  intros [= <-]. apply List.find_some in F as [_ F].
  apply andb_true_iff in F as [F1 F2].
  apply N.leb_le in F1. apply N.ltb_lt in F2. lia.
Qed.

Lemma zeros_ascii_or_above :
  List.forallb (fun z => (z =? 48) || (128 <=? z)) decimal_zeros = true.
Proof. vm_compute. reflexivity. Qed.

Lemma decimal_value_ascii c d :
  decimal_value c = Some d -> c < 128 -> c = 48 + d.
Proof.
  unfold decimal_value.
  destruct (List.find _ decimal_zeros) as [z|] eqn:F; [|discriminate].
  intros [= <-] Hc. apply List.find_some in F as [Hin F].
  apply andb_true_iff in F as [F1 F2].
  apply N.leb_le in F1. apply N.ltb_lt in F2.
  pose proof zeros_ascii_or_above as Hz.
  rewrite List.forallb_forall in Hz. specialize (Hz z Hin).
  apply orb_true_iff in Hz as [Hz|Hz].
  - apply N.eqb_eq in Hz. lia.
  - apply N.leb_le in Hz. lia.
Qed.

Lemma blanks_not_decimal :
  List.forallb (fun w => negb (is_decimal w)) whitespace = true.
Proof. vm_compute. reflexivity. Qed.

Lemma decimal_not_space c : is_decimal c = true -> is_space c = false.
Proof.
  intros Hd. destruct (is_space c) eqn:Hs; [|reflexivity].
  unfold is_space in Hs. apply List.existsb_exists in Hs as (w & Hin & Hw).
  apply N.eqb_eq in Hw. subst w.
  pose proof blanks_not_decimal as Hb.
  rewrite List.forallb_forall in Hb. specialize (Hb c Hin).
  rewrite Hd in Hb. discriminate.
Qed.

(** Folding a decimal digit gives the ASCII digit of the same value. *)
Lemma ascii_fold_decimal c :
  is_decimal c = true ->
  exists d, decimal_value c = Some d /\ d < 10 /\ ascii_fold c = 48 + d.
Proof.
  intros Hd. pose proof (decimal_not_space c Hd) as Hs.
  unfold is_decimal in Hd.
  destruct (decimal_value c) as [d|] eqn:E; [|discriminate].
  exists d. split; [reflexivity|]. split; [eapply decimal_value_bound; eauto|].
  unfold ascii_fold. destruct (c <? 128) eqn:Hc.
  - apply N.ltb_lt in Hc. now apply decimal_value_ascii.
  - now rewrite Hs, E.
Qed.

Lemma ascii_fold_is_c_digit c :
  is_decimal c = true -> is_c_digit (ascii_fold c) = true.
Proof.
  intros (d & _ & Hd & ->)%ascii_fold_decimal. unfold is_c_digit.
  apply andb_true_iff. split; [apply N.leb_le | apply N.leb_le]; lia.
Qed.

Lemma c_digit_bounds c : is_c_digit c = true -> 48 <= c <= 57.
Proof.
  unfold is_c_digit. intros [H1 H2]%andb_true_iff.
  apply N.leb_le in H1. apply N.leb_le in H2. lia.
Qed.

Lemma c_digit_not_underscore c : is_c_digit c = true -> (c =? 95) = false.
Proof. intros H%c_digit_bounds. apply N.eqb_neq. lia. Qed.

Lemma c_digit_not_c_space c : is_c_digit c = true -> is_c_space c = false.
Proof.
  intros H%c_digit_bounds. unfold is_c_space.
  apply orb_false_iff. split.
  - apply andb_false_iff. right. apply N.leb_gt. lia.
  - apply N.eqb_neq. lia.
Qed.

Lemma dot_not_decimal : is_decimal 46 = false.
Proof. vm_compute. reflexivity. Qed.
End DigitFacts.

(** ** [float] accepts every numeric substring *)

Module FloatParse.
Import DigitFacts SignFacts.

Lemma drop_underscores_none prev (t : str) :
  N.eqb prev 95 = false ->
  List.forallb (fun c => negb (N.eqb c 95)) t = true ->
  drop_underscores prev t = Some t.
Proof.
  revert prev. induction t as [|c t IH]; simpl; intros prev Hp H.
  - now rewrite Hp.
  - apply andb_true_iff in H as [Hc H]. apply negb_true_iff in Hc.
    rewrite Hc, Hp. simpl. now rewrite (IH c Hc H).
Qed.

Lemma plain_not_underscore c : plain c = true -> negb (N.eqb c 95) = true.
Proof.
  unfold plain. intros [H|H]%orb_true_iff; apply negb_true_iff.
  - now apply c_digit_not_underscore.
  - apply N.eqb_eq in H. now subst.
Qed.

Lemma plain_not_c_space c : plain c = true -> negb (is_c_space c) = true.
Proof.
  unfold plain. intros [H|H]%orb_true_iff; apply negb_true_iff.
  - now apply c_digit_not_c_space.
  - apply N.eqb_eq in H. now subst.
Qed.

Lemma c_digit_plain c : is_c_digit c = true -> plain c = true.
Proof. unfold plain. now intros ->. Qed.

Lemma fold_digits ds :
  List.forallb is_decimal ds = true ->
  List.forallb is_c_digit (List.map ascii_fold ds) = true.
Proof.
  induction ds as [|c ds IH]; simpl; [reflexivity|].
  intros [Hc H]%andb_true_iff.
  now rewrite (ascii_fold_is_c_digit c Hc), (IH H).
Qed.

Lemma fold_digits_value_from ds acc :
  List.forallb is_decimal ds = true ->
  List.fold_left (fun acc c => (10 * acc + Z.of_N (c - 48))%Z)
                 (List.map ascii_fold ds) acc =
  List.fold_left
    (fun acc c => (10 * acc + Z.of_N (default 0%N (decimal_value c)))%Z)
    ds acc.
Proof.
  revert acc. induction ds as [|c ds IH]; simpl; [reflexivity|].
  intros acc [Hc H]%andb_true_iff.
  destruct (ascii_fold_decimal c Hc) as (d & Hd & _ & ->).
  rewrite Hd. simpl default.
  replace (48 + d - 48)%N with d by lia. apply IH, H.
Qed.

Lemma fold_digits_value ds :
  List.forallb is_decimal ds = true ->
  digits_value (List.map ascii_fold ds) = unicode_digits_value ds.
Proof. apply fold_digits_value_from. Qed.

Lemma digits_value_nonneg_from ds acc :
  (0 <= acc)%Z ->
  (0 <= List.fold_left (fun acc c => (10 * acc + Z.of_N (c - 48))%Z) ds acc)%Z.
Proof.
  revert acc. induction ds as [|c ds IH]; simpl; intros acc H; [exact H|].
  apply IH. lia.
Qed.

Lemma digits_value_nonneg ds : (0 <= digits_value ds)%Z.
Proof. apply digits_value_nonneg_from. lia. Qed.

(** A text that starts with an ASCII digit is neither [inf] nor [nan]. *)
Lemma digit_first_not_inf_nan c (t : str) :
  is_c_digit c = true -> parse_inf_or_nan (c :: t) = None.
Proof.
  intros H%c_digit_bounds. unfold parse_inf_or_nan, split_sign.
  destruct (N.eqb c 45) eqn:E1; [apply N.eqb_eq in E1; lia|].
  destruct (N.eqb c 43) eqn:E2; [apply N.eqb_eq in E2; lia|].
  assert (L : to_lower c = c).
  { unfold to_lower. destruct (65 <=? c)%N eqn:E; [|reflexivity].
    apply N.leb_le in E. lia. }
  cbn [List.map]. rewrite L.
  change (py "inf") with [105; 110; 102]%N.
  change (py "nan") with [110; 97; 110]%N.
  cbn [starts_with].
  destruct (N.eqb 105 c) eqn:E3; [apply N.eqb_eq in E3; lia|].
  destruct (N.eqb 110 c) eqn:E4; [apply N.eqb_eq in E4; lia|].
  reflexivity.
Qed.

Lemma split_sign_digit c (t : str) :
  is_c_digit c = true -> split_sign (c :: t) = (false, c :: t).
Proof.
  intros H%c_digit_bounds. unfold split_sign.
  destruct (N.eqb c 45) eqn:E1; [apply N.eqb_eq in E1; lia|].
  destruct (N.eqb c 43) eqn:E2; [apply N.eqb_eq in E2; lia|].
  reflexivity.
Qed.

(** The inner parser on digits, or digits, a dot and digits. *)
Lemma float_from_string_inner_plain (ip dot fp : str) :
  ip <> [] ->
  List.forallb is_c_digit ip = true -> List.forallb is_c_digit fp = true ->
  (dot = [] /\ fp = []) \/ dot = [46%N] ->
  float_from_string_inner (ip ++ dot ++ fp) =
  Some (of_decimal false (digits_value (ip ++ fp))
                   (0 - Z.of_nat (length fp))).
Proof.
  intros Hne Hip Hfp Hdot.
  assert (Hplain : List.forallb plain (ip ++ dot ++ fp) = true).
  { rewrite !List.forallb_app.
    rewrite (forallb_impl _ _ ip c_digit_plain Hip).
    rewrite (forallb_impl _ _ fp c_digit_plain Hfp).
    destruct Hdot as [[-> _]| ->]; reflexivity. }
  unfold float_from_string_inner, c_strip.
  rewrite (drop_while_none is_c_space)
    by (eapply forallb_impl; [apply plain_not_c_space | exact Hplain]).
  rewrite (drop_while_end_none is_c_space)
    by (eapply forallb_impl; [apply plain_not_c_space | exact Hplain]).
  destruct ip as [|c ip0]; [contradiction|].
  pose proof Hip as Hip'. simpl in Hip'.
  apply andb_true_iff in Hip' as [Hc _].
  change ((c :: ip0) ++ dot ++ fp) with (c :: ip0 ++ dot ++ fp).
  rewrite (digit_first_not_inf_nan c _ Hc).
  unfold parse_decimal. rewrite (split_sign_digit c _ Hc).
  change (c :: ip0 ++ dot ++ fp) with ((c :: ip0) ++ dot ++ fp).
  destruct Hdot as [[-> ->]| ->].
  - rewrite (span_app is_c_digit (c :: ip0) ([] ++ []) Hip I).
    cbn [fst snd optional_dot span List.app length parse_exponent].
    rewrite List.app_nil_r. reflexivity.
  - rewrite (span_app is_c_digit (c :: ip0) ([46%N] ++ fp) Hip eq_refl).
    cbn [fst snd]. change (optional_dot ([46%N] ++ fp)) with ([46%N], fp).
    cbn [fst snd].
    pose proof (span_app is_c_digit fp [] Hfp I) as E.
    rewrite List.app_nil_r in E. rewrite E.
    cbn [fst snd parse_exponent List.app]. reflexivity.
Qed.

(** The decomposition of a number-shaped text is the one its value is
    read from. *)
Lemma shaped_digits (ip dot fp : str) :
  List.forallb is_decimal ip = true -> List.forallb is_decimal fp = true ->
  (dot = [] /\ fp = []) \/ dot = [46%N] ->
  int_digits (ip ++ dot ++ fp) = ip /\ frac_digits (ip ++ dot ++ fp) = fp.
Proof.
  intros Hip Hfp Hdot. unfold int_digits, frac_digits.
  destruct Hdot as [[-> ->]| ->].
  - rewrite (span_app is_decimal ip ([] ++ []) Hip I). split; reflexivity.
  - rewrite (span_app is_decimal ip ([46%N] ++ fp) Hip dot_not_decimal).
    cbn [fst snd]. change (optional_dot ([46%N] ++ fp)) with ([46%N], fp).
    cbn [fst snd]. pose proof (span_app is_decimal fp [] Hfp I) as E.
    rewrite List.app_nil_r in E. rewrite E. split; reflexivity.
Qed.

(** [float] on a match of the pattern returns the value the match
    denotes. *)
Lemma py_float_number a : number_shaped a -> py_float a = Some (number_value a).
Proof.
  intros (ip & dot & fp & -> & Hne & Hip & Hfp & Hdot).
  destruct (shaped_digits ip dot fp Hip Hfp Hdot) as [Ei Ef].
  unfold number_value. rewrite Ei, Ef.
  unfold py_float. rewrite !List.map_app.
  assert (Edot : List.map ascii_fold dot = dot)
    by (destruct Hdot as [[-> _]| ->]; reflexivity).
  rewrite Edot.
  assert (Hplain : List.forallb plain
            (List.map ascii_fold ip ++ dot ++ List.map ascii_fold fp) = true).
  { rewrite !List.forallb_app.
    rewrite (forallb_impl _ _ _ c_digit_plain (fold_digits ip Hip)).
    rewrite (forallb_impl _ _ _ c_digit_plain (fold_digits fp Hfp)).
    destruct Hdot as [[-> _]| ->]; reflexivity. }
  rewrite drop_underscores_none;
    [|reflexivity
     |eapply forallb_impl; [apply plain_not_underscore | exact Hplain]].
  rewrite float_from_string_inner_plain.
  - rewrite <- List.map_app, fold_digits_value, List.length_map;
      [reflexivity|].
    rewrite List.forallb_app, Hip, Hfp. reflexivity.
  - destruct ip; [contradiction | discriminate].
  - apply fold_digits, Hip.
  - apply fold_digits, Hfp.
  - destruct Hdot as [[-> ->]| ->]; [left; split; reflexivity | now right].
Qed.

Lemma unicode_digits_value_nonneg_from ds acc :
  (0 <= acc)%Z ->
  (0 <= List.fold_left
          (fun acc c => (10 * acc + Z.of_N (default 0%N (decimal_value c)))%Z)
          ds acc)%Z.
Proof.
  revert acc. induction ds as [|c ds IH]; simpl; intros acc H; [exact H|].
  apply IH. lia.
Qed.

Lemma unicode_digits_value_nonneg ds : (0 <= unicode_digits_value ds)%Z.
Proof. apply unicode_digits_value_nonneg_from. lia. Qed.

Lemma number_value_sign a : has_sign false (number_value a).
Proof. apply of_decimal_sign, unicode_digits_value_nonneg. Qed.
End FloatParse.

(** ** What [re.findall] returns *)

Module FindallFacts.
Import DigitFacts.

Lemma number_tail_shaped c (r : str) :
  is_decimal c = true -> number_shaped (c :: fst (number_tail r)).
Proof.
  intros Hc. unfold number_tail. cbn [fst].
  destruct (span_spec is_decimal r) as (_ & Hds & Hnext).
  exists (c :: fst (span is_decimal r)),
         (fst (optional_dot (snd (span is_decimal r)))),
         (fst (span is_decimal (snd (optional_dot (snd (span is_decimal r)))))).
  split; [reflexivity|]. split; [discriminate|].
  split; [simpl; now rewrite Hc, Hds|].
  split; [apply span_spec|].
  destruct (snd (span is_decimal r)) as [|x t]; simpl.
  - left. split; reflexivity.
  - destruct (N.eqb x 46) eqn:E.
    + right. apply N.eqb_eq in E. now subst.
    + left. simpl. now rewrite Hnext.
Qed.

Lemma findall_shaped (s : str) :
  List.Forall number_shaped (re_findall_numbers s).
Proof.
  funelim (re_findall_numbers s); simp re_findall_numbers.
  - constructor.
  - constructor; [now apply number_tail_shaped | assumption].
Qed.

(** The scan, one step at a time. *)
Lemma findall_cons (c : N) (r : str) :
  re_findall_numbers (c :: r) =
  if is_decimal c
  then (c :: fst (number_tail r)) :: re_findall_numbers (snd (number_tail r))
  else re_findall_numbers r.
Proof.
  simp re_findall_numbers. destruct (is_decimal c); reflexivity.
Qed.
End FindallFacts.

(** ** [parse_age_string] *)

Section ParseAge.
Import FloatParse FindallFacts SignFacts.

(** The function in closed form: it never raises, and its result depends
    on the number of numeric substrings alone. *)
Lemma parse_age_string_eq (age_str : str) :
  parse_age_string age_str =
  Ok match numeric_substrings age_str with
     | [a] => Some (number_value a)
     | [a; b] => Some (add (number_value a) (div (number_value b) twelve))
     | _ => None
     end.
Proof.
  unfold parse_age_string, numeric_substrings.
  pose proof (findall_shaped (str_strip (re_sub_letters age_str))) as H.
  destruct (re_findall_numbers _) as [|a [|b [|c l]]]; try reflexivity.
  - inversion_clear H as [|? ? Ha _].
    unfold float_of. now rewrite (py_float_number a Ha).
  - inversion_clear H as [|? ? Ha H']. inversion_clear H' as [|? ? Hb _].
    unfold float_of.
    now rewrite (py_float_number a Ha), (py_float_number b Hb).
Qed.

(** A number it returns has a clear sign bit and is not a NaN. *)
Lemma parse_age_string_sign (age_str : str) (x : float) :
  parse_age_string age_str = Ok (Some x) -> has_sign false x.
Proof.
  rewrite parse_age_string_eq. intros [= H].
  destruct (numeric_substrings age_str) as [|a [|b [|c l]]];
    try discriminate; injection H as <-.
  - apply number_value_sign.
  - apply add_sign; [|apply div_twelve_sign]; apply number_value_sign.
Qed.
End ParseAge.

Example parse_age_string_compound :
  parse_age_string (py "62 and 4 months") =
  Ok (Some (S754_finite false 8772636774148779 (-47))).
Proof. vm_compute. reflexivity. Qed.

Example parse_age_string_footnote :
  parse_age_string (py "70b") =
  Ok (Some (S754_finite false 4925812092436480 (-46))).
Proof. vm_compute. reflexivity. Qed.

(** C1.  When [parse_age_string] finds exactly one numeric substring it
    returns the value that substring denotes (which is what [float] makes of
    it); when it finds exactly two, it returns the first plus the second
    divided by [12.0]. *)
Theorem parse_age_string_one_or_two (age_str : str) :
  (forall a, numeric_substrings age_str = [a] ->
     py_float a = Some (number_value a) /\
     parse_age_string age_str = Ok (Some (number_value a))) /\
  (forall a b, numeric_substrings age_str = [a; b] ->
     py_float a = Some (number_value a) /\
     py_float b = Some (number_value b) /\
     parse_age_string age_str =
     Ok (Some (add (number_value a) (div (number_value b) twelve)))).
Proof.
  pose proof (FindallFacts.findall_shaped
                (str_strip (re_sub_letters age_str))) as H.
  fold (numeric_substrings age_str) in H.
  split.
  - intros a E. rewrite parse_age_string_eq, E. rewrite E in H.
    inversion_clear H as [|? ? Ha _].
    split; [now apply FloatParse.py_float_number | reflexivity].
  - intros a b E. rewrite parse_age_string_eq, E. rewrite E in H.
    inversion_clear H as [|? ? Ha H']. inversion_clear H' as [|? ? Hb _].
    repeat split; now apply FloatParse.py_float_number.
Qed.

Lemma parse_age_string_one_or_two_witness :
  numeric_substrings (py "62 and 4 months") = [py "62"; py "4"] /\
  parse_age_string (py "62 and 4 months") =
  Ok (Some (add (number_value (py "62")) (div (number_value (py "4")) twelve))).
Proof.
  split.
  - vm_compute. reflexivity.
  - apply (proj2 (parse_age_string_one_or_two (py "62 and 4 months"))).
    vm_compute. reflexivity.
Defined.

(** C6.  With no numeric substring, or with more than two, the function
    returns [None]; and on every input it returns: no exception leaves it. *)
Theorem parse_age_string_rejects_and_returns (age_str : str) :
  (length (numeric_substrings age_str) = 0 \/
   2 < length (numeric_substrings age_str) ->
   parse_age_string age_str = Ok None) /\
  (exists r, parse_age_string age_str = Ok r) /\
  (forall e, parse_age_string age_str <> Raise e).
Proof.
  rewrite parse_age_string_eq. split; [|split].
  - destruct (numeric_substrings age_str) as [|a [|b [|c l]]]; simpl;
      intros [H|H]; try reflexivity; try discriminate; lia.
  - eexists. reflexivity.
  - discriminate.
Qed.

Lemma parse_age_string_rejects_and_returns_witness :
  2 < length (numeric_substrings (py "1 and 2 and 3")) /\
  parse_age_string (py "1 and 2 and 3") = Ok None.
Proof.
  assert (H : 2 < length (numeric_substrings (py "1 and 2 and 3")))
    by (vm_compute; lia).
  split; [exact H|].
  apply (proj1 (parse_age_string_rejects_and_returns (py "1 and 2 and 3"))).
  right. exact H.
Defined.

(** C10.  A number returned by [parse_age_string] is never negative (and is
    not a NaN). *)
Theorem parse_age_string_nonneg (age_str : str) (x : float) :
  parse_age_string age_str = Ok (Some x) -> is_nonneg x = true.
Proof.
  intros H. eapply SignFacts.has_sign_nonneg, parse_age_string_sign, H.
Qed.

Lemma parse_age_string_nonneg_witness :
  is_nonneg (S754_finite false 8772636774148779 (-47)) = true.
Proof.
  apply (parse_age_string_nonneg (py "62 and 4 months")).
  vm_compute. reflexivity.
Defined.

(** ** The loop over the rows *)

Section RowsLoop.
Lemma row_step_spec (st : loop_state) (row : node) :
  row_step st row =
  match bad_cell row with
  | Some arg => Raise (ValueError (CouldNotConvertFloat arg))
  | None => Ok match row_point row with
               | Some p => record_point st p
               | None => st
               end
  end.
Proof.
  unfold row_step, bad_cell, row_point, record_point.
  destruct st as [d is_first_row].
  destruct (cols row) as [|a [|b [|c [|x l]]]]; try reflexivity.
  rewrite parse_age_string_eq. cbn [bind].
  destruct (match numeric_substrings a with
            | [a0] => Some (number_value a0)
            | [a0; b0] =>
                Some (add (number_value a0) (div (number_value b0) twelve))
            | _ => None
            end) as [v|]; [|reflexivity].
  unfold float_of.
  destruct (py_float b) as [al|]; [|reflexivity].
  destruct (py_float c) as [tl|]; [|reflexivity].
  cbn [bind]. destruct is_first_row; reflexivity.
Qed.

Lemma rows_loop_app (pre post : list node) (st : loop_state) :
  rows_loop (pre ++ post) st =
  let* st' := rows_loop pre st in rows_loop post st'.
Proof.
  revert st. induction pre as [|row pre IH]; intros st; simpl; [reflexivity|].
  destruct (row_step st row) as [st'|e]; simpl; [apply IH | reflexivity].
Qed.

(** Rows without a bad cell: the loop records the points of the rows that
    parse, one after the other. *)
Lemma rows_loop_points (rows : list node) (st : loop_state) :
  List.Forall (fun row => bad_cell row = None) rows ->
  rows_loop rows st = Ok (List.fold_left record_point (parsed_points rows) st).
Proof.
  intros H. revert st. induction H as [|row rows Hrow _ IH]; intros st;
    simpl; [reflexivity|].
  rewrite row_step_spec, Hrow. cbn [bind]. rewrite IH.
  unfold parsed_points at 2. cbn [List.flat_map].
  fold (parsed_points rows).
  destruct (row_point row); reflexivity.
Qed.

(** A row with a bad cell: the loop raises, at that row or before. *)
Lemma rows_loop_bad (pre post : list node) (row : node) (arg : str)
      (st : loop_state) :
  bad_cell row = Some arg ->
  exists arg', rows_loop (pre ++ row :: post) st =
               Raise (ValueError (CouldNotConvertFloat arg')).
Proof.
  intros Hbad. revert st. induction pre as [|r pre IH]; intros st; simpl.
  - rewrite row_step_spec, Hbad. eexists. reflexivity.
  - rewrite row_step_spec. destruct (bad_cell r) as [arg'|].
    + eexists. reflexivity.
    + cbn [bind]. apply IH.
Qed.

(** All the loop ever raises is the [ValueError] of [float]. *)
Lemma rows_loop_raises (rows : list node) (st : loop_state) (e : exn) :
  rows_loop rows st = Raise e ->
  exists row arg, List.In row rows /\ bad_cell row = Some arg /\
                  e = ValueError (CouldNotConvertFloat arg).
Proof.
  revert st. induction rows as [|r rows IH]; intros st; simpl; [discriminate|].
  rewrite row_step_spec. destruct (bad_cell r) as [arg|] eqn:Hbad.
  - intros [= <-]. exists r, arg. auto.
  - cbn [bind]. intros H. destruct (IH _ H) as (row & arg & Hin & Hb & He).
    exists row, arg. auto.
Qed.

Lemma rows_loop_ok_no_bad (rows : list node) (st st' : loop_state) :
  rows_loop rows st = Ok st' ->
  List.Forall (fun row => bad_cell row = None) rows.
Proof.
  revert st. induction rows as [|r rows IH]; intros st; simpl;
    [constructor|].
  rewrite row_step_spec. destruct (bad_cell r) as [arg|] eqn:Hbad;
    [discriminate|].
  cbn [bind]. intros H. constructor; [exact Hbad | eapply IH, H].
Qed.

Lemma record_points_later (ps : list point) (p : point) (f : list point) :
  List.fold_left record_point ps ({| initial := Some p; future := f |}, false)
  = ({| initial := Some p; future := f ++ ps |}, false).
Proof.
  revert f. induction ps as [|q ps IH]; intros f; simpl.
  - now rewrite List.app_nil_r.
  - rewrite IH, <- List.app_assoc. reflexivity.
Qed.

Lemma record_points_first (ps : list point) :
  List.fold_left record_point ps ({| initial := None; future := [] |}, true)
  = match ps with
    | [] => ({| initial := None; future := [] |}, true)
    | p :: rest => ({| initial := Some p; future := rest |}, false)
    end.
Proof.
  destruct ps as [|p rest]; simpl; [reflexivity|].
  apply record_points_later.
Qed.

(** The extraction in closed form, when no row has a bad cell. *)
Lemma extract_from_rows_points (rows : list node) :
  List.Forall (fun row => bad_cell row = None) (List.tl rows) ->
  extract_from_rows rows =
  match parsed_points (List.tl rows) with
  | [] => Raise (ValueError (Text msg_no_initial))
  | p :: rest => Ok {| initial := Some p; future := rest |}
  end.
Proof.
  intros H. unfold extract_from_rows.
  rewrite (rows_loop_points _ _ H), record_points_first. cbn [bind].
  destruct (parsed_points (List.tl rows)); reflexivity.
Qed.

Lemma extract_from_rows_ok (rows : list node) (d : data) :
  extract_from_rows rows = Ok d ->
  exists p, parsed_points (List.tl rows) = p :: future d /\
            initial d = Some p.
Proof.
  intros H.
  assert (Hn : List.Forall (fun row => bad_cell row = None) (List.tl rows)).
  { unfold extract_from_rows in H.
    destruct (rows_loop (List.tl rows) _) as [st'|e] eqn:E; [|discriminate].
    eapply rows_loop_ok_no_bad, E. }
  rewrite (extract_from_rows_points rows Hn) in H.
  destruct (parsed_points (List.tl rows)) as [|p rest]; [discriminate|].
  injection H as <-. exists p. split; reflexivity.
Qed.

(** Rows that do not have three cells do not count. *)
Lemma row_step_other_cols (st : loop_state) (row : node) :
  has_three_cols row = false -> row_step st row = Ok st.
Proof.
  unfold has_three_cols, row_step. destruct st as [d f].
  destruct (cols row) as [|a [|b [|c [|x l]]]]; try reflexivity.
  discriminate.
Qed.

Lemma rows_loop_filter (rows : list node) (st : loop_state) :
  rows_loop rows st = rows_loop (List.filter has_three_cols rows) st.
Proof.
  revert st. induction rows as [|r rows IH]; intros st; simpl; [reflexivity|].
  destruct (has_three_cols r) eqn:E; simpl.
  - destruct (row_step st r); simpl; [apply IH | reflexivity].
  - rewrite (row_step_other_cols st r E). apply IH.
Qed.
End RowsLoop.

(** ** The record extractor *)

Example extract_sample :
  extract_records sample_results =
  Ok {| initial := Some {| atAge := S754_finite false 4591560557592576 (-46);
                           additionalLE := S754_finite false 5516909543528858 (-48);
                           totalLE := S754_finite false 5974306380683674 (-46) |};
        future := [ {| atAge := S754_finite false 4714705859903488 (-46);
                       additionalLE := S754_finite false 5122844576133939 (-48);
                       totalLE := S754_finite false 5995417003936973 (-46) |};
                    {| atAge := S754_finite false 4925812092436480 (-46);
                       additionalLE := S754_finite false 4503599627370496 (-48);
                       totalLE := S754_finite false 6051711999279104 (-46) |} ] |}.
Proof. vm_compute. reflexivity. Qed.

(** C2.  The extractor leaves the first row out and works on the rows with
    exactly three cells; the first row that parses becomes [initial], the
    later ones follow in [future] in row order, and with no row that parses
    the extraction fails: it raises, and what it raises when every cell was
    readable is the error of the missing initial data. *)
Theorem extract_records_classifies (results_table : node) :
  let rows := List.tl (find_all (py "tr") results_table) in
  (forall header,
     extract_records results_table =
     extract_from_rows (header :: List.filter has_three_cols rows)) /\
  (List.Forall (fun row => bad_cell row = None) rows ->
   extract_records results_table =
   match parsed_points rows with
   | [] => Raise (ValueError (Text msg_no_initial))
   | p :: rest => Ok {| initial := Some p; future := rest |}
   end) /\
  (forall d, extract_records results_table = Ok d ->
     exists p, parsed_points rows = p :: future d /\ initial d = Some p) /\
  (parsed_points rows = [] -> exists e, extract_records results_table = Raise e).
Proof.
  intros rows. unfold extract_records. repeat split.
  - intros header. unfold extract_from_rows. cbn [List.tl].
    fold rows. now rewrite (rows_loop_filter rows).
  - apply extract_from_rows_points.
  - apply extract_from_rows_ok.
  - intros Hnone.
    destruct (extract_from_rows _) as [d|e] eqn:E; [|now exists e].
    destruct (extract_from_rows_ok _ _ E) as (p & Hp & _).
    fold rows in Hp. rewrite Hnone in Hp. discriminate.
Qed.

Lemma extract_records_classifies_witness :
  List.Forall (fun row => bad_cell row = None)
              (List.tl (find_all (py "tr") sample_results)) /\
  extract_records sample_results =
  match parsed_points (List.tl (find_all (py "tr") sample_results)) with
  | [] => Raise (ValueError (Text msg_no_initial))
  | p :: rest => Ok {| initial := Some p; future := rest |}
  end.
Proof.
  assert (H : List.Forall (fun row => bad_cell row = None)
                          (List.tl (find_all (py "tr") sample_results)))
    by forall_by_evaluation.
  split; [exact H|].
  apply (proj1 (proj2 (extract_records_classifies sample_results))), H.
Defined.

(** C3.  A row of three cells whose age does not normalize is skipped: the
    extraction goes on as if the row were not there.  A row of three cells
    whose age normalizes and one of whose two other cells [float] rejects
    makes the whole extraction fail with the [ValueError] of [float], which
    [scrape] answers with status 500. *)
Theorem extract_records_malformed_rows
        (results_table header row : node) (pre post : list node)
        (age_str additional_le_str total_le_str : str) :
  find_all (py "tr") results_table = header :: pre ++ row :: post ->
  cols row = [age_str; additional_le_str; total_le_str] ->
  (parse_age_string age_str = Ok None ->
   extract_records results_table = extract_from_rows (header :: pre ++ post)) /\
  (forall a, parse_age_string age_str = Ok (Some a) ->
     py_float additional_le_str = None \/ py_float total_le_str = None ->
     exists arg,
       extract_records results_table =
       Raise (ValueError (CouldNotConvertFloat arg)) /\
       respond (extract_records results_table) =
       {| status_code := 500;
          body := InternalError (ValueError (CouldNotConvertFloat arg)) |}).
Proof.
  intros Hrows Hcols. unfold extract_records. rewrite Hrows. split.
  - intros Hage. unfold extract_from_rows. cbn [List.tl].
    rewrite !rows_loop_app. cbn [rows_loop].
    assert (Hskip : forall st, row_step st row = Ok st).
    { intros st. rewrite row_step_spec. unfold bad_cell, row_point.
      now rewrite Hcols, Hage. }
    destruct (rows_loop pre _) as [st|e]; cbn [bind]; [|reflexivity].
    now rewrite Hskip.
  - intros a Hage Hbad.
    assert (Hcell : exists arg, bad_cell row = Some arg).
    { unfold bad_cell. rewrite Hcols, Hage.
      destruct (py_float additional_le_str) as [al|]; [|eauto].
      destruct (py_float total_le_str) as [tl|]; [|eauto].
      destruct Hbad; discriminate. }
    destruct Hcell as [arg0 Hcell].
    unfold extract_from_rows. cbn [List.tl].
    destruct (rows_loop_bad pre post row arg0
                ({| initial := None; future := [] |}, true) Hcell) as [arg E].
    exists arg. rewrite E. split; reflexivity.
Qed.

Lemma extract_records_malformed_rows_witness :
  extract_records sample_results =
  extract_from_rows
    [ header_row;
      tr [td "65 and 3 months"; td "19.6"; td "84.9"];
      tr [td "Future ages"];
      tr [td "67a"; td "18.2"; td "85.2"];
      tr [td "70b"; td "16.0"; td "86.0"] ] /\
  exists arg,
    extract_records corrupt_results =
    Raise (ValueError (CouldNotConvertFloat arg)) /\
    respond (extract_records corrupt_results) =
    {| status_code := 500;
       body := InternalError (ValueError (CouldNotConvertFloat arg)) |}.
Proof.
  split.
  - apply (proj1 (extract_records_malformed_rows
                    sample_results header_row
                    (tr [td "n/a"; td "17.0"; td "86.0"])
                    [ tr [td "65 and 3 months"; td "19.6"; td "84.9"];
                      tr [td "Future ages"];
                      tr [td "67a"; td "18.2"; td "85.2"] ]
                    [ tr [td "70b"; td "16.0"; td "86.0"] ]
                    (py "n/a") (py "17.0") (py "86.0")
                    ltac:(vm_compute; reflexivity)
                    ltac:(vm_compute; reflexivity))).
    vm_compute. reflexivity.
  - apply (proj2 (extract_records_malformed_rows
                    corrupt_results header_row
                    (tr [td "67a"; td "18,2"; td "85.2"])
                    [ tr [td "65 and 3 months"; td "19.6"; td "84.9"] ]
                    [ tr [td "70b"; td "16.0"; td "86.0"] ]
                    (py "67a") (py "18,2") (py "85.2")
                    ltac:(vm_compute; reflexivity)
                    ltac:(vm_compute; reflexivity))
                 (S754_finite false 4714705859903488 (-46))).
    + vm_compute. reflexivity.
    + left. vm_compute. reflexivity.
Defined.

Example extract_corrupt :
  extract_records corrupt_results =
  Raise (ValueError (CouldNotConvertFloat (py "18,2"))).
Proof. vm_compute. reflexivity. Qed.

(** ** The table locator *)

Section Locator.
Lemma first_marked_some (tables : list node) (t : node) :
  first_marked tables = Some t <->
  exists pre post, tables = pre ++ t :: post /\ marked t = true /\
                   List.Forall (fun u => marked u = false) pre.
Proof.
  split.
  - induction tables as [|u tables IH]; simpl; [discriminate|].
    fold (marked u). destruct (marked u) eqn:Hu.
    + intros [= ->]. exists [], tables. repeat split; [exact Hu | constructor].
    + intros (pre & post & -> & Ht & Hpre)%IH.
      exists (u :: pre), post. repeat split; [exact Ht | now constructor].
  - intros (pre & post & -> & Ht & Hpre).
    induction Hpre as [|u pre Hu _ IH]; simpl.
    + fold (marked t). now rewrite Ht.
    + fold (marked u). now rewrite Hu.
Qed.

Lemma first_marked_none (tables : list node) :
  first_marked tables = None <->
  List.Forall (fun u => marked u = false) tables.
Proof.
  induction tables as [|u tables IH]; simpl.
  - split; [constructor | reflexivity].
  - fold (marked u). destruct (marked u) eqn:Hu.
    + split; [discriminate|]. intros H. inversion H; congruence.
    + rewrite IH. split; [now constructor | now inversion 1].
Qed.
End Locator.

(** C4.  The locator goes through the tables of the page in document order
    and returns the first whose text contains [At Age]: whatever it returns
    is marked and comes after unmarked tables only, and a marked table
    before which none is marked is returned.  With three tables of which
    only the second is marked, it returns the second. *)
Theorem locator_selects_first_marked (soup : node) :
  (forall t, locate_results_table soup = Ok t <->
     exists pre post,
       find_all (py "table") soup = pre ++ t :: post /\
       str_contains marker (get_text t) = true /\
       List.Forall (fun u => str_contains marker (get_text u) = false) pre) /\
  (forall t1 t2 t3,
     find_all (py "table") soup = [t1; t2; t3] ->
     str_contains marker (get_text t1) = false ->
     str_contains marker (get_text t2) = true ->
     str_contains marker (get_text t3) = false ->
     locate_results_table soup = Ok t2).
Proof.
  assert (H : forall t, locate_results_table soup = Ok t <->
                        first_marked (find_all (py "table") soup) = Some t).
  { intros t. unfold locate_results_table.
    destruct (first_marked _) as [u|]; split; intros E;
      try discriminate; now injection E as ->. }
  split.
  - intros t. rewrite H. apply first_marked_some.
  - intros t1 t2 t3 E H1 H2 H3. apply H. rewrite E. simpl.
    now rewrite H1, H2.
Qed.

Lemma locator_selects_first_marked_witness :
  find_all (py "table") sample_page = [navigation; sample_results; footer] /\
  locate_results_table sample_page = Ok sample_results.
Proof.
  assert (E : find_all (py "table") sample_page =
              [navigation; sample_results; footer])
    by (vm_compute; reflexivity).
  split; [exact E|].
  apply (proj2 (locator_selects_first_marked sample_page)
               navigation sample_results footer E);
    vm_compute; reflexivity.
Defined.

(** C5.  On a page none of whose tables contains [At Age] the locator
    raises the error of the missing results table; nothing is extracted, and
    [scrape] answers with status 500 and that error. *)
Theorem locator_not_found (soup : node) :
  List.Forall (fun t => str_contains marker (get_text t) = false)
              (find_all (py "table") soup) ->
  locate_results_table soup = Raise (ValueError (Text msg_no_table)) /\
  parse_page soup = Raise (ValueError (Text msg_no_table)) /\
  respond (parse_page soup) =
  {| status_code := 500;
     body := InternalError (ValueError (Text msg_no_table)) |}.
Proof.
  intros H. apply first_marked_none in H.
  assert (E : locate_results_table soup = Raise (ValueError (Text msg_no_table)))
    by (unfold locate_results_table; now rewrite H).
  unfold parse_page. rewrite E. repeat split.
Qed.

Lemma locator_not_found_witness :
  locate_results_table page_without_results =
  Raise (ValueError (Text msg_no_table)) /\
  parse_page page_without_results = Raise (ValueError (Text msg_no_table)) /\
  respond (parse_page page_without_results) =
  {| status_code := 500;
     body := InternalError (ValueError (Text msg_no_table)) |}.
Proof.
  apply (locator_not_found page_without_results).
  forall_by_evaluation.
Defined.

(** ** [str] and [int] on integers *)

Module IntFacts.
Import DigitFacts FloatParse.

Lemma digits_of_eq (n : N) :
  digits_of n =
  if (n <? 10)%N then [(48 + n)%N]
  else digits_of (n / 10) ++ [(48 + n mod 10)%N].
Proof.
  apply_funelim (digits_of n).
  - intros m e _. now rewrite e.
  - intros m H _ _. now rewrite H.
Qed.

Lemma digits_of_c_digit (n : N) : List.forallb is_c_digit (digits_of n) = true.
Proof.
  apply_funelim (digits_of n).
  - intros m e _. apply N.ltb_lt in e. cbn [List.forallb].
    rewrite andb_true_r. unfold is_c_digit. apply andb_true_iff.
    split; apply N.leb_le; lia.
  - intros m H IH _. rewrite List.forallb_app, IH. cbn [List.forallb andb].
    rewrite andb_true_r. unfold is_c_digit.
    pose proof (N.mod_lt m 10 ltac:(lia)) as Hr.
    revert Hr. generalize (m mod 10)%N. intros r Hr.
    apply andb_true_iff. split; apply N.leb_le; lia.
Qed.

Lemma digits_of_nonempty (n : N) : digits_of n <> [].
Proof.
  rewrite digits_of_eq. destruct (n <? 10)%N; [discriminate|].
  destruct (digits_of (n / 10)); discriminate.
Qed.

Lemma digits_value_snoc (ds : str) (c : N) :
  digits_value (ds ++ [c]) = (10 * digits_value ds + Z.of_N (c - 48))%Z.
Proof. unfold digits_value. now rewrite List.fold_left_app. Qed.

Lemma digits_of_value (n : N) : digits_value (digits_of n) = Z.of_N n.
Proof.
  apply_funelim (digits_of n).
  - intros m e _. unfold digits_value. simpl. lia.
  - intros m H IH _. rewrite digits_value_snoc, IH.
    pose proof (N.div_mod m 10 ltac:(lia)) as Hm. revert Hm.
    generalize (m / 10)%N, (m mod 10)%N. intros q r Hm. lia.
Qed.

Lemma digits_of_length (n : N) : length (digits_of n) <= N.to_nat n + 1.
Proof.
  apply_funelim (digits_of n).
  - intros m e _. simpl. lia.
  - intros m H IH _. rewrite List.length_app. simpl.
    apply N.ltb_ge in H.
    pose proof (N.div_lt m 10 ltac:(lia) ltac:(lia)) as Hq. revert IH Hq.
    generalize (digits_of (m / 10)), (m / 10)%N. intros l q IH Hq. lia.
Qed.

Lemma digits_of_length_max (n : N) :
  length (digits_of n) <= Nat.max 1 (N.to_nat n).
Proof.
  apply_funelim (digits_of n).
  - intros m e _. simpl. lia.
  - intros m H IH _. rewrite List.length_app. simpl.
    apply N.ltb_ge in H.
    pose proof (N.div_lt m 10 ltac:(lia) ltac:(lia)) as Hq.
    assert (Hq1 : (1 <= m / 10)%N)
      by (apply N.div_le_lower_bound; lia).
    revert IH Hq Hq1.
    generalize (digits_of (m / 10)), (m / 10)%N. intros l q IH Hq Hq1. lia.
Qed.

Lemma ascii_fold_c_digits (ds : str) :
  List.forallb is_c_digit ds = true -> List.map ascii_fold ds = ds.
Proof.
  induction ds as [|c ds IH]; simpl; [reflexivity|].
  intros [Hc H]%andb_true_iff. rewrite (IH H). f_equal.
  apply c_digit_bounds in Hc. unfold ascii_fold.
  destruct (c <? 128)%N eqn:E; [reflexivity|]. apply N.ltb_ge in E. lia.
Qed.

(** [int] on a run of ASCII digits, with or without a minus sign. *)
Lemma py_int_digits (neg : bool) (ds : str) :
  ds <> [] -> List.forallb is_c_digit ds = true -> length ds <= 4300 ->
  py_int (if neg then 45%N :: ds else ds) =
  Some (cond_Zopp neg (digits_value ds)).
Proof.
  intros Hne Hds Hlen. destruct ds as [|c ds]; [contradiction|].
  pose proof Hds as Hc. simpl in Hc. apply andb_true_iff in Hc as [Hc _].
  assert (Hsp : List.forallb (fun x => negb (is_c_space x)) (c :: ds) = true)
    by (eapply forallb_impl;
        [intros a Ha; apply plain_not_c_space, c_digit_plain, Ha | exact Hds]).
  assert (Hus : List.forallb (fun x => negb (N.eqb x 95)) (c :: ds) = true)
    by (eapply forallb_impl;
        [intros a Ha; apply plain_not_underscore, c_digit_plain, Ha
        | exact Hds]).
  unfold py_int.
  assert (E : split_sign
                (drop_while is_c_space
                   (List.map ascii_fold (if neg then 45%N :: c :: ds
                                         else c :: ds)))
              = (neg, c :: ds)).
  { destruct neg.
    - change (List.map ascii_fold (45%N :: c :: ds))
        with (45%N :: List.map ascii_fold (c :: ds)).
      rewrite (ascii_fold_c_digits (c :: ds) Hds). reflexivity.
    - rewrite (ascii_fold_c_digits (c :: ds) Hds).
      rewrite (drop_while_none _ _ Hsp). apply split_sign_digit, Hc. }
  rewrite E.
  rewrite (drop_while_end_none _ _ Hsp).
  rewrite (drop_underscores_none 0%N _ eq_refl Hus).
  rewrite Hds. apply Nat.leb_le in Hlen. now rewrite Hlen.
Qed.

(** [int(str(z))] is [z], for an integer with at most 4300 digits. *)
Lemma py_int_str_of_int (z : Z) :
  (Z.abs z < 4300)%Z -> py_int (str_of_int z) = Some z.
Proof.
  intros Hz. unfold str_of_int.
  rewrite (py_int_digits (z <? 0)%Z (digits_of (Z.abs_N z))).
  - rewrite digits_of_value. f_equal.
    destruct (z <? 0)%Z eqn:E; simpl; [apply Z.ltb_lt in E | apply Z.ltb_ge in E];
      lia.
  - apply digits_of_nonempty.
  - apply digits_of_c_digit.
  - pose proof (digits_of_length (Z.abs_N z)). lia.
Qed.
End IntFacts.

(** ** The request boundary and the form driver *)

Section Boundary.
Context {browser : Type}.
Variable perform : call -> browser -> result browser.
Variable page_content : browser -> result str.
Variable html_parser : str -> node.

Lemma str_call_readable (v : jvalue) :
  str_call v = if readable v then Ok (py_str v)
               else Raise (ValueError StrTooManyDigits).
Proof.
  destruct v as [|bo|z|s|c shown]; try reflexivity.
  unfold str_call, str_of_int_call, readable. simpl py_str.
  destruct (Nat.ltb_spec 4300 (decimal_length z)) as [H|H],
           (Nat.leb_spec (decimal_length z) 4300) as [H'|H'];
    try reflexivity; lia.
Qed.

(** The [try] block on a JSON object: the four strings, unless [str]
    raises on one of the members. *)
Lemma read_fields_object (members : gmap str jvalue) :
  read_fields (JsonObject members) =
  if members_readable members
  then Ok (py_str (dict_get members (py "month")),
           py_str (dict_get members (py "day")),
           py_str (dict_get members (py "year")),
           py_str (dict_get members (py "sex")))
  else Raise (ValueError StrTooManyDigits).
Proof.
  unfold read_fields, members_readable, required_keys.
  cbn [List.forallb]. rewrite !str_call_readable.
  destruct (readable (dict_get members (py "month")));
    destruct (readable (dict_get members (py "day")));
    destruct (readable (dict_get members (py "year")));
    destruct (readable (dict_get members (py "sex"))); reflexivity.
Qed.

(** A body that cannot be decoded, or JSON that is not an object, is
    answered with status 400. *)
Lemma scrape_not_an_object (req : request_body) (b : browser) :
  req = Undecodable \/ req = JsonOther ->
  scrape perform page_content html_parser req b =
  Ok {| status_code := 400; body := InvalidRequestBody |}.
Proof. intros [-> | ->]; reflexivity. Qed.

(** Section 1 on a JSON object, and what follows it. *)
Lemma scrape_object (members : gmap str jvalue) (b : browser) :
  let month_from_react := py_str (dict_get members (py "month")) in
  let day := py_str (dict_get members (py "day")) in
  let year := py_str (dict_get members (py "year")) in
  let sex := py_str (dict_get members (py "sex")) in
  scrape perform page_content html_parser (JsonObject members) b =
  if negb (members_readable members)
  then Ok {| status_code := 400; body := InvalidRequestBody |}
  else
    if negb (truthy month_from_react && truthy day && truthy year && truthy sex)
    then Ok {| status_code := 400; body := MissingParameters |}
    else
      let* month_for_ssa := month_for_ssa month_from_react in
      Ok (respond
            (let* content :=
               fetch_results_page perform page_content
                                  sex month_for_ssa day year b in
             parse_page (html_parser content))).
Proof.
  unfold scrape. rewrite read_fields_object.
  destruct (members_readable members); reflexivity.
Qed.

(** An absent member reads as the string [None], which is not empty. *)
Lemma absent_member_truthy (members : gmap str jvalue) (key : str) :
  members !! key = None -> truthy (py_str (dict_get members key)) = true.
Proof. intros H. unfold dict_get. now rewrite H. Qed.

Lemma str_of_int_truthy (z : Z) : truthy (str_of_int z) = true.
Proof.
  unfold str_of_int. destruct (z <? 0)%Z; [reflexivity|].
  pose proof (IntFacts.digits_of_nonempty (Z.abs_N z)).
  destruct (digits_of (Z.abs_N z)); [contradiction | reflexivity].
Qed.

(** [str(int(str(z)) - 1)] for a small integer. *)
Lemma month_for_ssa_int (z : Z) :
  (Z.abs z < 4300)%Z -> month_for_ssa (str_of_int z) = Ok (str_of_int (z - 1)).
Proof.
  intros Hz. unfold month_for_ssa, int_of.
  rewrite IntFacts.py_int_str_of_int by exact Hz. cbn [bind].
  unfold str_of_int_call, decimal_length.
  pose proof (IntFacts.digits_of_length_max (Z.abs_N (z - 1))) as Hl.
  destruct (Nat.ltb_spec 4300 (length (digits_of (Z.abs_N (z - 1)))));
    [lia | reflexivity].
Qed.

(** A request that passes section 1: the calls [scrape] makes on the
    browser, one by one, and what it answers. *)
Lemma scrape_runs_form (members : gmap str jvalue) (b : browser) (ms : str) :
  let day := py_str (dict_get members (py "day")) in
  let year := py_str (dict_get members (py "year")) in
  let sex := py_str (dict_get members (py "sex")) in
  members_readable members = true ->
  truthy (py_str (dict_get members (py "month"))) &&
  truthy day && truthy year && truthy sex = true ->
  month_for_ssa (py_str (dict_get members (py "month"))) = Ok ms ->
  scrape perform page_content html_parser (JsonObject members) b =
  Ok (respond
        (let* b1 :=
           run_calls perform
             [ Launch; NewPage;
               Goto (py "https://www.ssa.gov/cgi-bin/longevity.cgi") 60000;
               WaitForSelector (select_named "sex") 30000;
               SelectOption (select_named "sex") sex;
               WaitForSelector (select_named "monthofbirth") 30000;
               SelectOption (select_named "monthofbirth") ms;
               WaitForTimeout 500;
               WaitForSelector (select_named "dayofbirth") 30000;
               SelectOption (select_named "dayofbirth") day;
               WaitForSelector (select_named "yearofbirth") 30000;
               SelectOption (select_named "yearofbirth") year;
               Click submit_button;
               WaitForLoadState (py "networkidle") 60000 ] b in
         let* content := page_content b1 in
         let* _ := perform Close b1 in
         parse_page (html_parser content))).
Proof.
  intros day year sex Hr Ht Hm. rewrite scrape_object, Hr. cbn [negb].
  fold day year sex. rewrite Ht, Hm. cbn [negb bind].
  unfold fetch_results_page, form_calls.
  destruct (run_calls perform _ b) as [b1|e]; cbn [bind]; [|reflexivity].
  destruct (page_content b1) as [content|e]; cbn [bind]; [|reflexivity].
  destruct (perform Close b1); reflexivity.
Qed.
End Boundary.

(** On the browser that refuses the selection of the month, a request that
    passes section 1 is answered with the value [scrape] tried to select. *)
Lemma scrape_on_month_spy
      (page_content : unit -> result str) (html_parser : str -> node)
      (members : gmap str jvalue) (ms : str) :
  members_readable members = true ->
  truthy (py_str (dict_get members (py "month"))) &&
  truthy (py_str (dict_get members (py "day"))) &&
  truthy (py_str (dict_get members (py "year"))) &&
  truthy (py_str (dict_get members (py "sex"))) = true ->
  month_for_ssa (py_str (dict_get members (py "month"))) = Ok ms ->
  scrape month_spy page_content html_parser (JsonObject members) tt =
  Ok {| status_code := 500; body := InternalError (PlaywrightError ms) |}.
Proof.
  intros Hr Ht Hm.
  rewrite (scrape_runs_form month_spy page_content html_parser members tt ms
             Hr Ht Hm).
  generalize (py_str (dict_get members (py "sex"))),
             (py_str (dict_get members (py "day"))),
             (py_str (dict_get members (py "year"))).
  intros sex day year. vm_compute. reflexivity.
Qed.

(** C7.  For a profile whose month is [m], from 1 for January to 12, the
    value the driver selects on the month control of the form is [m - 1]:
    that is the month [scrape] computes and the only value the form calls
    select on that control; on every browser the calls [scrape] makes are,
    in this order, the ones listed, with [m - 1] selected on the month
    control; and a browser that refuses that selection is refused with
    [m - 1]. *)
Theorem month_is_shifted_by_one (m : Z) :
  (1 <= m <= 12)%Z ->
  month_for_ssa (py_str (JInt m)) = Ok (str_of_int (m - 1)) /\
  (forall sex day year,
     selected_values (select_named "monthofbirth")
                     (form_calls sex (str_of_int (m - 1)) day year) =
     [str_of_int (m - 1)]) /\
  (forall (browser : Type) (perform : call -> browser -> result browser)
          (page_content : browser -> result str) (html_parser : str -> node)
          (members : gmap str jvalue) (b : browser),
     members !! py "month" = Some (JInt m) ->
     members_readable members = true ->
     let day := py_str (dict_get members (py "day")) in
     let year := py_str (dict_get members (py "year")) in
     let sex := py_str (dict_get members (py "sex")) in
     truthy day && truthy year && truthy sex = true ->
     scrape perform page_content html_parser (JsonObject members) b =
     Ok (respond
           (let* b1 :=
              run_calls perform
                [ Launch; NewPage;
                  Goto (py "https://www.ssa.gov/cgi-bin/longevity.cgi") 60000;
                  WaitForSelector (select_named "sex") 30000;
                  SelectOption (select_named "sex") sex;
                  WaitForSelector (select_named "monthofbirth") 30000;
                  SelectOption (select_named "monthofbirth")
                               (str_of_int (m - 1));
                  WaitForTimeout 500;
                  WaitForSelector (select_named "dayofbirth") 30000;
                  SelectOption (select_named "dayofbirth") day;
                  WaitForSelector (select_named "yearofbirth") 30000;
                  SelectOption (select_named "yearofbirth") year;
                  Click submit_button;
                  WaitForLoadState (py "networkidle") 60000 ] b in
            let* content := page_content b1 in
            let* _ := perform Close b1 in
            parse_page (html_parser content)))) /\
  (forall (page_content : unit -> result str) (html_parser : str -> node)
          (members : gmap str jvalue),
     members !! py "month" = Some (JInt m) ->
     members_readable members = true ->
     truthy (py_str (dict_get members (py "day"))) &&
     truthy (py_str (dict_get members (py "year"))) &&
     truthy (py_str (dict_get members (py "sex"))) = true ->
     scrape month_spy page_content html_parser (JsonObject members) tt =
     Ok {| status_code := 500;
           body := InternalError (PlaywrightError (str_of_int (m - 1))) |}).
Proof.
  intros Hm.
  assert (E : month_for_ssa (py_str (JInt m)) = Ok (str_of_int (m - 1)))
    by (apply month_for_ssa_int; lia).
  assert (T : forall (members : gmap str jvalue),
            members !! py "month" = Some (JInt m) ->
            truthy (py_str (dict_get members (py "day"))) &&
            truthy (py_str (dict_get members (py "year"))) &&
            truthy (py_str (dict_get members (py "sex"))) = true ->
            dict_get members (py "month") = JInt m /\
            truthy (py_str (dict_get members (py "month"))) &&
            truthy (py_str (dict_get members (py "day"))) &&
            truthy (py_str (dict_get members (py "year"))) &&
            truthy (py_str (dict_get members (py "sex"))) = true).
  { intros members Hmonth Hrest.
    assert (Em : dict_get members (py "month") = JInt m)
      by (unfold dict_get; now rewrite Hmonth).
    split; [exact Em|]. rewrite Em. simpl py_str. rewrite str_of_int_truthy.
    apply andb_true_iff in Hrest as [Hrest Hs].
    apply andb_true_iff in Hrest as [Hd Hy].
    now rewrite Hd, Hy, Hs. }
  split; [exact E|]. split; [|split].
  - intros sex day year. generalize (str_of_int (m - 1)). intros v.
    vm_compute. reflexivity.
  - intros browser perform page_content html_parser members b Hmonth Hr
           day year sex Hrest.
    destruct (T members Hmonth Hrest) as [Em Ht].
    apply scrape_runs_form; [exact Hr | exact Ht | now rewrite Em].
  - intros page_content html_parser members Hmonth Hr Hrest.
    destruct (T members Hmonth Hrest) as [Em Ht].
    apply scrape_on_month_spy; [exact Hr | exact Ht | now rewrite Em].
Qed.

Lemma month_is_shifted_by_one_witness :
  scrape month_spy (fun _ => Ok (py "<html>")) (fun _ => sample_page)
         sample_request tt =
  Ok {| status_code := 500; body := InternalError (PlaywrightError (py "2")) |}.
Proof.
  apply (proj2 (proj2 (proj2 (month_is_shifted_by_one 3 ltac:(lia))))
               (fun _ => Ok (py "<html>")) (fun _ => sample_page)).
  - vm_compute. reflexivity.
  - vm_compute. reflexivity.
  - vm_compute. reflexivity.
Defined.

(** The profile of 15 March 1960, female, on a browser that records the
    calls: the month control is given the value 2. *)
Example sample_request_calls :
  run_calls recording
            (form_calls (py "f") (py "2") (py "15") (py "1960")) [] =
  Ok [ Launch; NewPage;
       Goto (py "https://www.ssa.gov/cgi-bin/longevity.cgi") 60000;
       WaitForSelector (select_named "sex") 30000;
       SelectOption (select_named "sex") (py "f");
       WaitForSelector (select_named "monthofbirth") 30000;
       SelectOption (select_named "monthofbirth") (py "2");
       WaitForTimeout 500;
       WaitForSelector (select_named "dayofbirth") 30000;
       SelectOption (select_named "dayofbirth") (py "15");
       WaitForSelector (select_named "yearofbirth") 30000;
       SelectOption (select_named "yearofbirth") (py "1960");
       Click submit_button;
       WaitForLoadState (py "networkidle") 60000 ].
Proof. vm_compute. reflexivity. Qed.

Example sample_request_response :
  scrape recording (fun _ => Ok (py "<html>")) (fun _ => sample_page)
         sample_request [] =
  Ok (respond (extract_records sample_results)).
Proof. vm_compute. reflexivity. Qed.

(** C9.  A request whose JSON body lacks the month is not answered with
    status 400: the absent member reads as the string [None], the check for
    missing parameters passes, and [int] raises a [ValueError] that nothing
    catches. *)
Theorem scrape_without_month_raises
        (browser : Type) (perform : call -> browser -> result browser)
        (page_content : browser -> result str) (html_parser : str -> node)
        (b : browser) :
  scrape perform page_content html_parser request_without_month b =
  Raise (ValueError (InvalidIntLiteral (py "None"))).
Proof. vm_compute. reflexivity. Qed.

(** A request whose members [str] can read and none of which reads as the
    empty string, as when one of them is absent, is never answered with
    status 400. *)
Lemma scrape_missing_member_not_400
      (browser : Type) (perform : call -> browser -> result browser)
      (page_content : browser -> result str) (html_parser : str -> node)
      (members : gmap str jvalue) (b : browser) (r : HttpResponse) :
  members_readable members = true ->
  truthy (py_str (dict_get members (py "month"))) &&
  truthy (py_str (dict_get members (py "day"))) &&
  truthy (py_str (dict_get members (py "year"))) &&
  truthy (py_str (dict_get members (py "sex"))) = true ->
  scrape perform page_content html_parser (JsonObject members) b = Ok r ->
  status_code r <> 400%Z.
Proof.
  intros Hr H. rewrite scrape_object, Hr, H. cbn [negb].
  destruct (month_for_ssa _) as [v|e]; cbn [bind]; [|discriminate].
  intros [= <-]. destruct (let* _ := _ in _); simpl; discriminate.
Qed.

(** ** The invariant of the data model *)

Example extract_unruly :
  extract_records unruly_results =
  Ok {| initial := Some {| atAge := S754_finite false 4925812092436480 (-46);
                           additionalLE := S754_finite true 6755399441055744 (-52);
                           totalLE := S754_nan |};
        future := [ {| atAge := S754_finite false 4573968371548160 (-46);
                       additionalLE := S754_infinity false;
                       totalLE := S754_finite false 4503599627370496 (-52) |};
                    {| atAge := S754_finite false 8444249301319680 (-47);
                       additionalLE := S754_finite false 4503599627370496 (-51);
                       totalLE := S754_finite false 6755399441055744 (-51) |} ] |}.
Proof. vm_compute. reflexivity. Qed.

(** An age written with four hundred digits is too large for a float: it
    normalizes to infinity. *)
Example parse_age_string_overflow :
  parse_age_string (List.repeat 57%N 400) = Ok (Some (S754_infinity false)).
Proof. vm_compute. reflexivity. Qed.

(** C8, as stated, fails: a table extracts successfully although one of its
    points has a negative field and a field that is not a number, another an
    infinite field, and the ages of its later points decrease. *)
Lemma extraction_invariant_fails :
  ~ (forall (results_table : node) (d : data),
       extract_records results_table = Ok d ->
       List.Forall (fun p => point_ok p = true) (points_of d)) /\
  ~ (forall (results_table : node) (d : data),
       extract_records results_table = Ok d ->
       strictly_increasing (List.map atAge (future d)) = true).
Proof.
  split; intros H; specialize (H unruly_results _ extract_unruly).
  - inversion_clear H as [|? ? Hp _]. vm_compute in Hp. discriminate.
  - vm_compute in H. discriminate.
Qed.

(** C8, amended.  In every successful extraction the age of every point is
    a number that is not negative. *)
Theorem extracted_ages_nonneg (results_table : node) (d : data) :
  extract_records results_table = Ok d ->
  List.Forall (fun p => is_nonneg (atAge p) = true) (points_of d).
Proof.
  intros H. apply extract_from_rows_ok in H as (p & Hp & Hi).
  unfold points_of. rewrite Hi, <- Hp.
  apply List.Forall_forall. intros q Hq.
  unfold parsed_points in Hq. apply List.in_flat_map in Hq as (row & _ & Hq).
  unfold row_point in Hq.
  destruct (cols row) as [|a [|b [|c [|x l]]]]; try contradiction.
  destruct (parse_age_string a) as [[v|]|e] eqn:E; try contradiction.
  destruct (py_float b), (py_float c); try contradiction.
  destruct Hq as [<-|[]]. simpl.
  eapply SignFacts.has_sign_nonneg, parse_age_string_sign, E.
Qed.

Lemma extracted_ages_nonneg_witness :
  List.Forall (fun p => is_nonneg (atAge p) = true)
              (points_of
                 {| initial := Some {| atAge := S754_finite false 4925812092436480 (-46);
                                       additionalLE := S754_finite true 6755399441055744 (-52);
                                       totalLE := S754_nan |};
                    future := [ {| atAge := S754_finite false 4573968371548160 (-46);
                                   additionalLE := S754_infinity false;
                                   totalLE := S754_finite false 4503599627370496 (-52) |};
                                {| atAge := S754_finite false 8444249301319680 (-47);
                                   additionalLE := S754_finite false 4503599627370496 (-51);
                                   totalLE := S754_finite false 6755399441055744 (-51) |} ] |}).
Proof.
  apply (extracted_ages_nonneg unruly_results).
  vm_compute. reflexivity.
Defined.

(** * Further properties of [parse_age_string] *)

Section AgeText.
Import DigitFacts FindallFacts.

Lemma re_sub_letters_app (a b : str) :
  re_sub_letters (a ++ b) = re_sub_letters a ++ re_sub_letters b.
Proof. apply List.filter_app. Qed.

Lemma re_sub_letters_only_letters (l : str) :
  List.forallb is_ascii_letter l = true -> re_sub_letters l = [].
Proof.
  induction l as [|c l IH]; simpl; [reflexivity|].
  intros [Hc H]%andb_true_iff. rewrite Hc. simpl. apply IH, H.
Qed.

Lemma space_inert (c : N) : is_space c = true -> inert c = true.
Proof.
  intros Hs. unfold inert. apply andb_true_iff. split.
  - destruct (is_decimal c) eqn:E; [|reflexivity].
    apply decimal_not_space in E. congruence.
  - destruct (N.eqb c 46) eqn:E; [|reflexivity].
    apply N.eqb_eq in E. subst. discriminate.
Qed.

Lemma findall_inert (w : str) :
  List.forallb inert w = true -> re_findall_numbers w = [].
Proof.
  induction w as [|c w IH]; [reflexivity|].
  simpl. intros [Hc H]%andb_true_iff. rewrite findall_cons.
  apply andb_true_iff in Hc as [Hc _]. apply negb_true_iff in Hc.
  rewrite Hc. apply IH, H.
Qed.

Lemma span_decimal_inert_tail (r w : str) :
  List.forallb inert w = true ->
  span is_decimal (r ++ w) =
  (fst (span is_decimal r), snd (span is_decimal r) ++ w).
Proof.
  intros Hw. induction r as [|c r IH]; simpl.
  - destruct w as [|x w]; [reflexivity|]. simpl in *.
    apply andb_true_iff in Hw as [Hx _].
    apply andb_true_iff in Hx as [Hx _]. apply negb_true_iff in Hx.
    now rewrite Hx.
  - destruct (is_decimal c); [|reflexivity]. now rewrite IH.
Qed.

Lemma optional_dot_inert_tail (r w : str) :
  List.forallb inert w = true ->
  optional_dot (r ++ w) = (fst (optional_dot r), snd (optional_dot r) ++ w).
Proof.
  intros Hw. destruct r as [|c r]; simpl.
  - destruct w as [|x w]; [reflexivity|]. simpl in *.
    apply andb_true_iff in Hw as [Hx _].
    apply andb_true_iff in Hx as [_ Hx]. apply negb_true_iff in Hx.
    now rewrite Hx.
  - destruct (N.eqb c 46); reflexivity.
Qed.

Lemma number_tail_inert_tail (r w : str) :
  List.forallb inert w = true ->
  number_tail (r ++ w) = (fst (number_tail r), snd (number_tail r) ++ w).
Proof.
  intros Hw. unfold number_tail.
  rewrite (span_decimal_inert_tail r w Hw). cbn [fst snd].
  rewrite (optional_dot_inert_tail _ w Hw). cbn [fst snd].
  rewrite (span_decimal_inert_tail _ w Hw). reflexivity.
Qed.

(** Inert characters after the text do not change what is found. *)
Lemma findall_inert_tail (s w : str) :
  List.forallb inert w = true ->
  re_findall_numbers (s ++ w) = re_findall_numbers s.
Proof.
  intros Hw. funelim (re_findall_numbers s).
  - apply findall_inert, Hw.
  - change ((c :: r) ++ w) with (c :: (r ++ w)).
    rewrite findall_cons, Heq, (number_tail_inert_tail r w Hw).
    cbn [fst snd]. f_equal. apply (H _ w Hw eq_refl eq_refl).
  - change ((c :: r) ++ w) with (c :: (r ++ w)).
    rewrite findall_cons, Heq. apply (H _ w Hw eq_refl eq_refl).
Qed.

(** Inert characters before the text do not either. *)
Lemma findall_inert_head (w s : str) :
  List.forallb inert w = true ->
  re_findall_numbers (w ++ s) = re_findall_numbers s.
Proof.
  induction w as [|c w IH]; [reflexivity|].
  simpl. intros [Hc H]%andb_true_iff. rewrite findall_cons.
  apply andb_true_iff in Hc as [Hc _]. apply negb_true_iff in Hc.
  rewrite Hc. apply IH, H.
Qed.

Lemma drop_while_split (p : N -> bool) (s : str) :
  exists w, s = w ++ drop_while p s /\ List.forallb p w = true.
Proof.
  induction s as [|c s (w & E & Hw)]; simpl.
  - exists []. split; reflexivity.
  - destruct (p c) eqn:Hc.
    + exists (c :: w). simpl. rewrite Hc, Hw. split; [now f_equal | reflexivity].
    + exists []. split; reflexivity.
Qed.

Lemma drop_while_end_split (p : N -> bool) (s : str) :
  exists w, s = drop_while_end p s ++ w /\ List.forallb p w = true.
Proof.
  unfold drop_while_end.
  destruct (drop_while_split p (List.rev s)) as (w & E & Hw).
  exists (List.rev w). split.
  - rewrite <- List.rev_app_distr, <- E. symmetry. apply List.rev_involutive.
  - now rewrite forallb_rev.
Qed.

Lemma findall_strip (s : str) :
  re_findall_numbers (str_strip s) = re_findall_numbers s.
Proof.
  unfold str_strip.
  destruct (drop_while_split is_space s) as (w1 & E1 & H1).
  destruct (drop_while_end_split is_space (drop_while is_space s))
    as (w2 & E2 & H2).
  rewrite E1 at 2. rewrite E2 at 2.
  rewrite findall_inert_head
    by (eapply forallb_impl; [apply space_inert | exact H1]).
  rewrite findall_inert_tail
    by (eapply forallb_impl; [apply space_inert | exact H2]).
  reflexivity.
Qed.
End AgeText.

(** X1.  ASCII letters anywhere in the text are ignored, also between two
    digits, which they join into one number. *)
Theorem parse_age_string_ignores_letters (a l b : str) :
  List.forallb is_ascii_letter l = true ->
  parse_age_string (a ++ l ++ b) = parse_age_string (a ++ b).
Proof.
  intros Hl. unfold parse_age_string.
  rewrite !re_sub_letters_app, (re_sub_letters_only_letters l Hl).
  reflexivity.
Qed.

Lemma parse_age_string_ignores_letters_witness :
  parse_age_string (py "6a2") = parse_age_string (py "62").
Proof.
  apply (parse_age_string_ignores_letters (py "6") (py "a") (py "2")).
  vm_compute. reflexivity.
Defined.

(** X2.  The call of [strip] changes nothing: the numbers found are those
    of the text without its letters, and blanks around the text do not
    change the result. *)
Theorem parse_age_string_blanks_around (w1 s w2 : str) :
  List.forallb is_space w1 = true -> List.forallb is_space w2 = true ->
  numeric_substrings s = re_findall_numbers (re_sub_letters s) /\
  parse_age_string (w1 ++ s ++ w2) = parse_age_string s.
Proof.
  intros H1 H2.
  assert (E : forall t, numeric_substrings t =
                        re_findall_numbers (re_sub_letters t))
    by (intros t; apply findall_strip).
  split; [apply E|].
  rewrite !parse_age_string_eq, !E, !re_sub_letters_app.
  assert (Hi : forall w, List.forallb is_space w = true ->
                         List.forallb inert (re_sub_letters w) = true).
  { intros w Hw. unfold re_sub_letters.
    apply List.forallb_forall. intros c Hc%List.filter_In.
    destruct Hc as [Hc _]. rewrite List.forallb_forall in Hw.
    apply space_inert, Hw, Hc. }
  rewrite findall_inert_head by (apply Hi, H1).
  rewrite findall_inert_tail by (apply Hi, H2).
  reflexivity.
Qed.

Lemma parse_age_string_blanks_around_witness :
  parse_age_string ([32%N; 9%N] ++ py "62 and 4 months" ++ [160%N; 10%N]) =
  parse_age_string (py "62 and 4 months").
Proof.
  apply (proj2 (parse_age_string_blanks_around
                  [32%N; 9%N] (py "62 and 4 months") [160%N; 10%N]
                  ltac:(vm_compute; reflexivity)
                  ltac:(vm_compute; reflexivity))).
Defined.

(** ** Whole ages are exact *)

Module ExactFacts.
Import DigitFacts FloatParse FindallFacts IntFacts.
Local Open Scope Z_scope.

Lemma iter_xO_value (p k : positive) :
  Z.pos (Pos.iter xO p k) = Z.pos p * 2 ^ Z.pos k.
Proof.
  induction k as [|k IH] using Pos.peano_ind.
  - simpl. lia.
  - rewrite Pos.iter_succ, Pos2Z.inj_xO, IH, Pos2Z.inj_succ, Z.pow_succ_r by lia.
    lia.
Qed.

Lemma iter_xO_digits (p k : positive) :
  digits2_pos (Pos.iter xO p k) = (digits2_pos p + k)%positive.
Proof.
  induction k as [|k IH] using Pos.peano_ind.
  - simpl. lia.
  - rewrite Pos.iter_succ. simpl. rewrite IH. lia.
Qed.

(** A mantissa of 53 bits with an exponent in range is kept as it is. *)
Lemma binary_round_aux_canonical (s : bool) (m : positive) (e : Z) :
  Z.pos (digits2_pos m) = 53 -> -1074 <= e <= 971 ->
  binary_round_aux prec emax s (Z.pos m) e loc_Exact = S754_finite s m e.
Proof.
  intros Hd He.
  assert (Hs : forall l, shr_fexp prec emax (Z.pos m) e l =
                         (shr_record_of_loc (Z.pos m) l, e)).
  { intros l. unfold shr_fexp, fexp, emin, prec, emax. simpl Zdigits2.
    rewrite Hd.
    replace (Z.max (53 + e - 53) (3 - 1024 - 53) - e) with 0 by lia.
    reflexivity. }
  unfold binary_round_aux. rewrite Hs. cbn [shr_record_of_loc shr_m
    loc_of_shr_record round_nearest_even]. rewrite Hs.
  cbn [shr_record_of_loc shr_m]. unfold prec, emax.
  destruct (e <=? 1024 - 53) eqn:E; [reflexivity|].
  apply Z.leb_gt in E. lia.
Qed.

(** Rounding a natural number of at most 53 bits is exact. *)
Lemma binary_round_small (p : positive) :
  Z.pos (digits2_pos p) <= 53 ->
  is_integer (binary_round prec emax false p 0) (Z.pos p).
Proof.
  intros Hd. unfold binary_round.
  assert (Hf : fexp prec emax (Z.pos (digits2_pos p) + 0) =
               Z.pos (digits2_pos p) - 53)
    by (unfold fexp, emin, prec, emax; lia).
  rewrite Hf. unfold shl_align. rewrite Z.sub_0_r.
  destruct (Z.pos (digits2_pos p) - 53) as [|k|k] eqn:E; try lia.
  - rewrite binary_round_aux_canonical by lia. simpl. lia.
  - rewrite binary_round_aux_canonical.
    + simpl. rewrite iter_xO_value. reflexivity.
    + rewrite iter_xO_digits. lia.
    + lia.
Qed.

Lemma digits2_pos_bound (p : positive) (k : Z) :
  0 <= k -> Z.pos p < 2 ^ k -> Z.pos (digits2_pos p) <= k.
Proof.
  revert k. induction p as [p IH|p IH|]; intros k Hk Hp; simpl.
  - assert (0 < k) by (destruct (Z.eq_dec k 0); [subst; simpl in Hp|]; lia).
    replace k with (Z.succ (k - 1)) in Hp by lia.
    rewrite Z.pow_succ_r in Hp by lia.
    specialize (IH (k - 1) ltac:(lia) ltac:(lia)). lia.
  - assert (0 < k) by (destruct (Z.eq_dec k 0); [subst; simpl in Hp|]; lia).
    replace k with (Z.succ (k - 1)) in Hp by lia.
    rewrite Z.pow_succ_r in Hp by lia.
    specialize (IH (k - 1) ltac:(lia) ltac:(lia)). lia.
  - destruct (Z.eq_dec k 0); [subst; simpl in Hp|]; lia.
Qed.

Lemma of_decimal_small (n : Z) :
  0 <= n < 2 ^ 53 -> is_integer (of_decimal false n 0) n.
Proof.
  intros Hn. unfold of_decimal. destruct n as [|p|p]; try reflexivity; [|lia].
  change (0 <=? 0) with true. cbn iota.
  change (10 ^ 0) with 1. rewrite Z.mul_1_r. cbn [cond_Zopp binary_normalize].
  apply binary_round_small, digits2_pos_bound; lia.
Qed.

Lemma c_digit_is_decimal (c : N) : is_c_digit c = true -> is_decimal c = true.
Proof.
  intros H%c_digit_bounds. unfold is_decimal, decimal_value.
  change decimal_zeros with (48%N :: List.tl decimal_zeros).
  cbn [List.find].
  assert (E : ((48 <=? c) && (c <? 48 + 10))%N = true).
  { apply andb_true_iff. split; [apply N.leb_le | apply N.ltb_lt]; lia. }
  now rewrite E.
Qed.

Lemma c_digit_not_letter (c : N) :
  is_c_digit c = true -> is_ascii_letter c = false.
Proof.
  intros H%c_digit_bounds. unfold is_ascii_letter.
  apply orb_false_iff. split; apply andb_false_iff; left; apply N.leb_gt; lia.
Qed.

(** A text of ASCII digits is found as one number, itself. *)
Lemma findall_digits (ds : str) :
  ds <> [] -> List.forallb is_c_digit ds = true ->
  re_findall_numbers ds = [ds].
Proof.
  intros Hne Hds. destruct ds as [|c r]; [contradiction|].
  assert (Hdec : List.forallb is_decimal (c :: r) = true)
    by (eapply forallb_impl; [apply c_digit_is_decimal | exact Hds]).
  simpl in Hdec. apply andb_true_iff in Hdec as [Hc Hr].
  rewrite findall_cons, Hc. unfold number_tail.
  pose proof (span_app is_decimal r [] Hr I) as E.
  rewrite List.app_nil_r in E. rewrite E. cbn [fst snd optional_dot span].
  rewrite !List.app_nil_r. simp re_findall_numbers. reflexivity.
Qed.

Lemma number_value_digits (ds : str) :
  List.forallb is_c_digit ds = true ->
  number_value ds = of_decimal false (digits_value ds) 0.
Proof.
  intros Hds.
  assert (Hdec : List.forallb is_decimal ds = true)
    by (eapply forallb_impl; [apply c_digit_is_decimal | exact Hds]).
  unfold number_value, int_digits, frac_digits.
  pose proof (span_app is_decimal ds [] Hdec I) as E.
  rewrite List.app_nil_r in E. rewrite E. cbn [fst snd optional_dot span length].
  rewrite List.app_nil_r, <- fold_digits_value by exact Hdec.
  rewrite ascii_fold_c_digits by exact Hds. reflexivity.
Qed.
End ExactFacts.

(** X3.  An age written as a natural number below 2^53, with or without
    footnote letters after it, is returned exactly. *)
Theorem parse_age_string_whole_exact (n : N) (footnote : str) :
  (n < 2 ^ 53)%N ->
  List.forallb is_ascii_letter footnote = true ->
  exists x, parse_age_string (digits_of n ++ footnote) = Ok (Some x) /\
            is_integer x (Z.of_N n).
Proof.
  intros Hn Hf.
  pose proof (IntFacts.digits_of_c_digit n) as Hds.
  assert (Hclean : re_sub_letters (digits_of n ++ footnote) = digits_of n).
  { rewrite re_sub_letters_app, (re_sub_letters_only_letters _ Hf),
      List.app_nil_r.
    unfold re_sub_letters. apply List.forallb_filter_id.
    eapply forallb_impl; [|exact Hds].
    intros c Hc. now rewrite (ExactFacts.c_digit_not_letter c Hc). }
  exists (of_decimal false (Z.of_N n) 0). split.
  - rewrite parse_age_string_eq.
    unfold numeric_substrings. rewrite findall_strip, Hclean.
    rewrite (ExactFacts.findall_digits _ (IntFacts.digits_of_nonempty n) Hds).
    rewrite (ExactFacts.number_value_digits _ Hds), IntFacts.digits_of_value.
    reflexivity.
  - apply ExactFacts.of_decimal_small. split; [lia|].
    change (2 ^ 53)%Z with (Z.of_N (2 ^ 53)). lia.
Qed.

Lemma parse_age_string_whole_exact_witness :
  exists x, parse_age_string (py "70b") = Ok (Some x) /\ is_integer x 70.
Proof.
  apply (parse_age_string_whole_exact 70 (py "b")).
  - vm_compute. reflexivity.
  - vm_compute. reflexivity.
Defined.

(** * Further properties of [scrape] *)

Section Outcomes.
Context {browser : Type}.
Variable perform : call -> browser -> result browser.
Variable page_content : browser -> result str.
Variable html_parser : str -> node.

Lemma py_str_empty (v : jvalue) : py_str v = [] <-> v = JStr [].
Proof.
  split; [|now intros ->].
  destruct v as [|[]|z|s|c shown]; simpl; try discriminate.
  - intros H. pose proof (str_of_int_truthy z) as T. rewrite H in T.
    discriminate.
  - now intros ->.
Qed.

Lemma member_not_truthy (members : gmap str jvalue) (key : str) :
  truthy (py_str (dict_get members key)) = false <->
  members !! key = Some (JStr []).
Proof.
  unfold dict_get. destruct (members !! key) as [v|]; simpl.
  - split.
    + destruct (py_str v) eqn:E; [|discriminate].
      apply py_str_empty in E. now subst.
    + now intros [= ->].
  - split; discriminate.
Qed.

(** The check for missing parameters fires exactly when one of the four
    members is the empty string. *)
Lemma check_fires_iff (members : gmap str jvalue) :
  negb (truthy (py_str (dict_get members (py "month"))) &&
        truthy (py_str (dict_get members (py "day"))) &&
        truthy (py_str (dict_get members (py "year"))) &&
        truthy (py_str (dict_get members (py "sex")))) = true <->
  exists key, List.In key required_keys /\ members !! key = Some (JStr []).
Proof.
  rewrite negb_true_iff, !andb_false_iff, !member_not_truthy.
  unfold required_keys. split.
  - intros [[[H|H]|H]|H]; eexists; (split; [|exact H]); simpl; auto.
  - intros (key & Hin & H). simpl in Hin.
    destruct Hin as [<-|[<-|[<-|[<-|[]]]]]; auto.
Qed.

Lemma check_passes_iff (members : gmap str jvalue) :
  truthy (py_str (dict_get members (py "month"))) &&
  truthy (py_str (dict_get members (py "day"))) &&
  truthy (py_str (dict_get members (py "year"))) &&
  truthy (py_str (dict_get members (py "sex"))) = true <->
  forall key, List.In key required_keys -> members !! key <> Some (JStr []).
Proof.
  split.
  - intros H key Hin Hk.
    assert (F : exists key, List.In key required_keys /\
                            members !! key = Some (JStr [])) by eauto.
    apply check_fires_iff in F. rewrite H in F. discriminate.
  - intros H. destruct (_ && _) eqn:E; [reflexivity|].
    assert (F : negb false = true) by reflexivity. rewrite <- E in F.
    apply check_fires_iff in F as (key & Hin & Hk). now destruct (H key Hin).
Qed.

Lemma run_calls_app (pre post : list call) (b : browser) :
  run_calls perform (pre ++ post) b =
  let* b' := run_calls perform pre b in run_calls perform post b'.
Proof.
  revert b. induction pre as [|c pre IH]; intros b; simpl; [reflexivity|].
  destruct (perform c b) as [b'|e]; simpl; [apply IH | reflexivity].
Qed.

(** What [str(int(text) - 1)] raises. *)
Lemma month_for_ssa_raises (text : str) (e : exn) :
  month_for_ssa text = Raise e <->
  (py_int text = None /\ e = ValueError (InvalidIntLiteral text)) \/
  (exists m, py_int text = Some m /\ 4300 < decimal_length (m - 1) /\
             e = ValueError StrTooManyDigits).
Proof.
  unfold month_for_ssa, int_of, str_of_int_call.
  destruct (py_int text) as [m|]; cbn [bind].
  - destruct (Nat.ltb_spec 4300 (decimal_length (m - 1))) as [H|H]; split.
    + intros [= <-]. right. exists m. auto.
    + intros [[? _]|(m' & [= <-] & _ & ->)]; [discriminate | reflexivity].
    + discriminate.
    + intros [[? _]|(m' & [= <-] & H' & _)]; [discriminate | lia].
  - split.
    + intros [= <-]. left. auto.
    + intros [[_ ->]|(m' & ? & _)]; [reflexivity | discriminate].
Qed.
End Outcomes.

(** X4.  A response with status 200 carries the data extracted from the
    first marked table of the page the browser returned, and its [initial]
    is present. *)
Theorem scrape_success_carries_initial
        (browser : Type) (perform : call -> browser -> result browser)
        (page_content : browser -> result str) (html_parser : str -> node)
        (req : request_body) (b : browser) (r : HttpResponse) :
  scrape perform page_content html_parser req b = Ok r ->
  status_code r = 200%Z ->
  exists members m content results_table d p,
    req = JsonObject members /\
    py_int (py_str (dict_get members (py "month"))) = Some m /\
    fetch_results_page perform page_content
      (py_str (dict_get members (py "sex"))) (str_of_int (m - 1))
      (py_str (dict_get members (py "day")))
      (py_str (dict_get members (py "year"))) b = Ok content /\
    locate_results_table (html_parser content) = Ok results_table /\
    extract_records results_table = Ok d /\
    body r = JsonData d /\ initial d = Some p.
Proof.
  destruct req as [| |members|]; try (intros [= <-]; discriminate);
    try discriminate.
  rewrite scrape_object.
  destruct (negb (members_readable members));
    [intros [= <-]; discriminate|].
  destruct (negb _); [intros [= <-]; discriminate|].
  unfold month_for_ssa, int_of.
  destruct (py_int _) as [m|] eqn:Em; cbn [bind]; [|discriminate].
  unfold str_of_int_call.
  destruct (4300 <? decimal_length (m - 1))%nat; cbn [bind]; [discriminate|].
  intros [= <-].
  destruct (fetch_results_page _ _ _ _ _ _ _) as [content|e] eqn:Ef;
    cbn [bind]; [|discriminate].
  unfold parse_page.
  destruct (locate_results_table _) as [t|e] eqn:El; cbn [bind];
    [|discriminate].
  destruct (extract_records t) as [d|e] eqn:Ex; [|discriminate].
  intros _. destruct (extract_from_rows_ok _ _ Ex) as (p & _ & Hp).
  exists members, m, content, t, d, p. repeat split; assumption.
Qed.

Lemma scrape_success_carries_initial_witness :
  exists members m content results_table d p,
    sample_request = JsonObject members /\
    py_int (py_str (dict_get members (py "month"))) = Some m /\
    fetch_results_page recording (fun _ => Ok (py "<html>"))
      (py_str (dict_get members (py "sex"))) (str_of_int (m - 1))
      (py_str (dict_get members (py "day")))
      (py_str (dict_get members (py "year"))) [] = Ok content /\
    locate_results_table sample_page = Ok results_table /\
    extract_records results_table = Ok d /\
    body (respond (extract_records sample_results)) = JsonData d /\
    initial d = Some p.
Proof.
  apply (scrape_success_carries_initial
           (list call) recording (fun _ => Ok (py "<html>"))
           (fun _ => sample_page) sample_request []
           (respond (extract_records sample_results))).
  - vm_compute. reflexivity.
  - vm_compute. reflexivity.
Defined.

(** X5.  The answer 400 for missing parameters is given exactly when
    [get_json] returns a dictionary, [str] returns for its four members,
    and one of the four is the empty string. *)
Theorem scrape_missing_parameters_iff
        (browser : Type) (perform : call -> browser -> result browser)
        (page_content : browser -> result str) (html_parser : str -> node)
        (req : request_body) (b : browser) :
  scrape perform page_content html_parser req b =
  Ok {| status_code := 400; body := MissingParameters |} <->
  exists members key,
    req = JsonObject members /\ members_readable members = true /\
    List.In key required_keys /\ members !! key = Some (JStr []).
Proof.
  split.
  - destruct req as [| |members|]; try discriminate.
    rewrite scrape_object.
    destruct (members_readable members) eqn:Hr; cbn [negb]; [|discriminate].
    destruct (negb _) eqn:E.
    + intros _. apply check_fires_iff in E as (key & Hin & Hk).
      now exists members, key.
    + destruct (month_for_ssa _); cbn [bind]; [|discriminate].
      intros [= H]. destruct (let* _ := _ in _); discriminate.
  - intros (members & key & -> & Hr & Hin & Hk).
    rewrite scrape_object, Hr. cbn [negb].
    assert (E : exists key, List.In key required_keys /\
                            members !! key = Some (JStr [])) by eauto.
    apply check_fires_iff in E. now rewrite E.
Qed.

(** X6.  An exception leaves [scrape] in three cases and no other: the
    [RecursionError] of [get_json] on JSON nested too deep; and, for a
    dictionary whose four members [str] reads and none of which is the empty
    string, the [ValueError] of [int] on the text of the month, or the
    [ValueError] of [str] when the month less one has more than 4300
    digits. *)
Theorem scrape_raises_iff
        (browser : Type) (perform : call -> browser -> result browser)
        (page_content : browser -> result str) (html_parser : str -> node)
        (req : request_body) (b : browser) (e : exn) :
  scrape perform page_content html_parser req b = Raise e <->
  (req = TooDeep /\ e = RecursionError) \/
  exists members,
    req = JsonObject members /\ members_readable members = true /\
    (forall key, List.In key required_keys ->
                 members !! key <> Some (JStr [])) /\
    ((py_int (py_str (dict_get members (py "month"))) = None /\
      e = ValueError
            (InvalidIntLiteral (py_str (dict_get members (py "month"))))) \/
     (exists m,
        py_int (py_str (dict_get members (py "month"))) = Some m /\
        4300 < decimal_length (m - 1) /\
        e = ValueError StrTooManyDigits)).
Proof.
  split.
  - destruct req as [| |members|]; try discriminate.
    + intros [= <-]. left. split; reflexivity.
    + rewrite scrape_object.
      destruct (members_readable members) eqn:Hr; cbn [negb]; [|discriminate].
      destruct (negb _) eqn:E; [discriminate|].
      apply negb_false_iff in E.
      pose proof (proj1 (check_passes_iff members) E) as Hkeys.
      destruct (month_for_ssa _) as [ms|e'] eqn:Em; cbn [bind]; [discriminate|].
      intros [= <-]. right. exists members.
      apply month_for_ssa_raises in Em. repeat split; assumption.
  - intros [[-> ->]|(members & -> & Hr & Hkeys & He)]; [reflexivity|].
    rewrite scrape_object, Hr. cbn [negb].
    rewrite (proj2 (check_passes_iff members) Hkeys). cbn [negb].
    apply month_for_ssa_raises in He. now rewrite He.
Qed.

(** X7.  When a call on the browser fails, the answer is 500 with the
    error of that call, whatever the calls after it, the page and the parser
    would have given. *)
Theorem scrape_browser_failure
        (browser : Type) (perform : call -> browser -> result browser)
        (page_content : browser -> result str) (html_parser : str -> node)
        (members : gmap str jvalue) (ms : str) (pre post : list call)
        (c : call) (b b' : browser) (e : exn) :
  members_readable members = true ->
  (forall key, List.In key required_keys -> members !! key <> Some (JStr [])) ->
  month_for_ssa (py_str (dict_get members (py "month"))) = Ok ms ->
  [ Launch; NewPage;
    Goto (py "https://www.ssa.gov/cgi-bin/longevity.cgi") 60000;
    WaitForSelector (select_named "sex") 30000;
    SelectOption (select_named "sex") (py_str (dict_get members (py "sex")));
    WaitForSelector (select_named "monthofbirth") 30000;
    SelectOption (select_named "monthofbirth") ms;
    WaitForTimeout 500;
    WaitForSelector (select_named "dayofbirth") 30000;
    SelectOption (select_named "dayofbirth")
                 (py_str (dict_get members (py "day")));
    WaitForSelector (select_named "yearofbirth") 30000;
    SelectOption (select_named "yearofbirth")
                 (py_str (dict_get members (py "year")));
    Click submit_button;
    WaitForLoadState (py "networkidle") 60000 ] = pre ++ c :: post ->
  run_calls perform pre b = Ok b' ->
  perform c b' = Raise e ->
  scrape perform page_content html_parser (JsonObject members) b =
  Ok {| status_code := 500; body := InternalError e |}.
Proof.
  intros Hr Hkeys Hm Hcalls Hpre Hc.
  rewrite (scrape_runs_form perform page_content html_parser members b ms
             Hr (proj2 (check_passes_iff members) Hkeys) Hm).
  rewrite Hcalls, run_calls_app, Hpre. cbn [bind run_calls].
  rewrite Hc. reflexivity.
Qed.

Lemma scrape_browser_failure_witness :
  scrape (times_out_at 5) (fun _ => Ok (py "<html>")) (fun _ => sample_page)
         sample_request 0 =
  Ok {| status_code := 500;
        body := InternalError
                  (PlaywrightError (py "Timeout 30000ms exceeded.")) |}.
Proof.
  destruct sample_request as [| |members|] eqn:E; try discriminate.
  injection E as <-.
  apply (scrape_browser_failure
           nat (times_out_at 5) (fun _ => Ok (py "<html>"))
           (fun _ => sample_page) _ (py "2")
           [ Launch; NewPage;
             Goto (py "https://www.ssa.gov/cgi-bin/longevity.cgi") 60000;
             WaitForSelector (select_named "sex") 30000;
             SelectOption (select_named "sex") (py "f") ]
           [ SelectOption (select_named "monthofbirth") (py "2");
             WaitForTimeout 500;
             WaitForSelector (select_named "dayofbirth") 30000;
             SelectOption (select_named "dayofbirth") (py "15");
             WaitForSelector (select_named "yearofbirth") 30000;
             SelectOption (select_named "yearofbirth") (py "1960");
             Click submit_button;
             WaitForLoadState (py "networkidle") 60000 ]
           (WaitForSelector (select_named "monthofbirth") 30000)
           0 5).
  - vm_compute. reflexivity.
  - intros key Hin.
    destruct Hin as [<-|[<-|[<-|[<-|[]]]]]; vm_compute; discriminate.
  - vm_compute. reflexivity.
  - vm_compute. reflexivity.
  - vm_compute. reflexivity.
  - vm_compute. reflexivity.
Defined.

(** * Further properties of the extraction *)

(** X8.  The extraction stops at the first cell that [float] rejects, in
    row order and within a row the additional expectancy before the total:
    the error names that cell, whatever the rows after it hold. *)
Theorem extract_records_first_bad_cell
        (results_table header row : node) (pre post : list node) (arg : str) :
  find_all (py "tr") results_table = header :: pre ++ row :: post ->
  List.Forall (fun r => bad_cell r = None) pre ->
  bad_cell row = Some arg ->
  extract_records results_table = Raise (ValueError (CouldNotConvertFloat arg)).
Proof.
  intros Hrows Hpre Hbad. unfold extract_records, extract_from_rows.
  rewrite Hrows. cbn [List.tl].
  rewrite rows_loop_app, (rows_loop_points pre _ Hpre). cbn [bind rows_loop].
  rewrite row_step_spec, Hbad. reflexivity.
Qed.

Lemma extract_records_first_bad_cell_witness :
  extract_records corrupt_results =
  Raise (ValueError (CouldNotConvertFloat (py "18,2"))).
Proof.
  apply (extract_records_first_bad_cell
           corrupt_results header_row
           (tr [td "67a"; td "18,2"; td "85.2"])
           [ tr [td "65 and 3 months"; td "19.6"; td "84.9"] ]
           [ tr [td "70b"; td "16.0"; td "86.0"] ]).
  - vm_compute. reflexivity.
  - constructor; [vm_compute; reflexivity | constructor].
  - vm_compute. reflexivity.
Defined.

(** ** Tables inside tables *)

Section Nesting.
(** Induction on a page: a property of every tag follows from that of its
    contents. *)
Lemma node_induction (P : node -> Prop) :
  (forall s, P (NavigableString s)) ->
  (forall s, P (Comment s)) ->
  (forall name contents, List.Forall P contents -> P (Tag name contents)) ->
  forall n, P n.
Proof.
  intros Hs Hc Ht.
  fix IH 1. intros [s|s|name contents].
  - apply Hs.
  - apply Hc.
  - apply Ht. induction contents as [|k contents IHc]; constructor.
    + apply IH.
    + apply IHc.
Qed.

(** The nodes below a descendant form a block of the nodes below the
    node. *)
Lemma descendants_block (u t : node) :
  List.In t (descendants u) ->
  exists pre post, descendants u = pre ++ descendants t ++ post.
Proof.
  revert t. induction u as [s|s|name contents IH] using node_induction;
    intros t Hin; try contradiction.
  simpl in Hin. apply List.in_flat_map in Hin as (k & Hk & Hin).
  apply List.in_split in Hk as (c1 & c2 & ->).
  simpl. rewrite List.flat_map_app. simpl.
  apply List.Forall_app in IH as [_ IH]. inversion_clear IH as [|? ? IHk _].
  destruct Hin as [<-|Hin].
  - exists (List.flat_map (fun k0 => k0 :: descendants k0) c1 ++ [k]),
           (List.flat_map (fun k0 => k0 :: descendants k0) c2).
    rewrite <- !List.app_assoc. reflexivity.
  - destruct (IHk t Hin) as (p & q & E).
    exists (List.flat_map (fun k0 => k0 :: descendants k0) c1 ++ k :: p),
           (q ++ List.flat_map (fun k0 => k0 :: descendants k0) c2).
    rewrite E, <- !List.app_assoc. reflexivity.
Qed.

Lemma get_text_block (u t : node) :
  List.In t (descendants u) ->
  exists pre post, get_text u = pre ++ get_text t ++ post.
Proof.
  intros (p & q & E)%descendants_block. unfold get_text.
  rewrite E, !List.flat_map_app. eauto.
Qed.

Lemma starts_with_app (needle s rest : str) :
  starts_with needle s = true -> starts_with needle (s ++ rest) = true.
Proof.
  revert s. induction needle as [|a needle IH]; intros s; [reflexivity|].
  destruct s as [|b s]; simpl; [discriminate|].
  intros [Hab H]%andb_true_iff. now rewrite Hab, (IH s H).
Qed.

Lemma str_contains_app_l (needle s rest : str) :
  str_contains needle s = true -> str_contains needle (s ++ rest) = true.
Proof.
  induction s as [|c s IH].
  - simpl. rewrite orb_false_r. intros H.
    destruct needle; [|discriminate]. destruct rest; reflexivity.
  - cbn [str_contains List.app]. fold (str_contains needle s).
    fold (str_contains needle (s ++ rest)).
    intros [H|H]%orb_true_iff.
    + change (c :: s ++ rest) with ((c :: s) ++ rest).
      now rewrite (starts_with_app _ _ rest H).
    + rewrite (IH H). apply orb_true_r.
Qed.

Lemma str_contains_app_r (needle pre s : str) :
  str_contains needle s = true -> str_contains needle (pre ++ s) = true.
Proof.
  intros H. induction pre as [|c pre IH]; [exact H|].
  cbn [str_contains List.app]. fold (str_contains needle (pre ++ s)).
  rewrite IH. apply orb_true_r.
Qed.
End Nesting.

(** X9.  The text of a tag contains the text of every tag inside it, so a
    table that encloses a marked table is marked itself: when the results
    are laid out inside another table, that outer table, which comes first
    in document order, is what a page made of it alone yields. *)
Theorem enclosing_table_is_marked (outer inner : node) :
  List.In inner (descendants outer) ->
  str_contains marker (get_text inner) = true ->
  str_contains marker (get_text outer) = true /\
  (is_tag (py "table") outer = true ->
   locate_results_table (document [outer]) = Ok outer).
Proof.
  intros Hin Hm.
  assert (Ho : str_contains marker (get_text outer) = true).
  { destruct (get_text_block outer inner Hin) as (p & q & ->).
    apply str_contains_app_r, str_contains_app_l, Hm. }
  split; [exact Ho|].
  intros Ht. unfold locate_results_table, find_all, document.
  cbn [descendants List.flat_map]. rewrite List.app_nil_r.
  cbn [List.filter]. rewrite Ht. cbn [first_marked]. now rewrite Ho.
Qed.

Lemma enclosing_table_is_marked_witness :
  locate_results_table (document [table [tr [Tag (py "td") [sample_results]]]])
  = Ok (table [tr [Tag (py "td") [sample_results]]]).
Proof.
  apply (proj2 (enclosing_table_is_marked
                  (table [tr [Tag (py "td") [sample_results]]])
                  sample_results
                  ltac:(vm_compute; auto 10)
                  ltac:(vm_compute; reflexivity))).
  vm_compute. reflexivity.
Defined.

(** * Further properties of the request boundary *)

(** X10.  Every response has status 200, 400 or 500, and the answer 400
    for an invalid body is given exactly when [get_json] raises
    [ValueError], or returns a value that is not a dictionary, or returns a
    dictionary on one of whose four members [str] raises. *)
Theorem scrape_statuses
        (browser : Type) (perform : call -> browser -> result browser)
        (page_content : browser -> result str) (html_parser : str -> node)
        (req : request_body) (b : browser) (r : HttpResponse) :
  scrape perform page_content html_parser req b = Ok r ->
  (status_code r = 200%Z \/ status_code r = 400%Z \/ status_code r = 500%Z) /\
  (body r = InvalidRequestBody <->
   req = Undecodable \/ req = JsonOther \/
   exists members, req = JsonObject members /\
                   members_readable members = false).
Proof.
  destruct req as [| |members|].
  - intros [= <-]. simpl. split; [auto | split; auto].
  - discriminate.
  - rewrite scrape_object.
    destruct (members_readable members) eqn:Hr; cbn [negb].
    + assert (N : ~ (JsonObject members = Undecodable \/
                     JsonObject members = JsonOther \/
                     exists members0, JsonObject members = JsonObject members0 /\
                                      members_readable members0 = false)).
      { intros [?|[?|(m0 & [= <-] & H0)]]; try discriminate. congruence. }
      destruct (negb _).
      * intros [= <-]. simpl. split; [auto|]. split; [discriminate | tauto].
      * destruct (month_for_ssa _); cbn [bind]; [|discriminate].
        intros [= <-]. destruct (let* _ := _ in _); simpl;
          (split; [auto|]; split; [discriminate | tauto]).
    + intros [= <-]. simpl. split; [auto|]. split; [|reflexivity].
      intros _. right. right. now exists members.
  - intros [= <-]. simpl. split; [auto | split; auto].
Qed.

Lemma scrape_statuses_witness :
  (status_code (respond (extract_records sample_results)) = 200%Z \/
   status_code (respond (extract_records sample_results)) = 400%Z \/
   status_code (respond (extract_records sample_results)) = 500%Z) /\
  (body (respond (extract_records sample_results)) = InvalidRequestBody <->
   sample_request = Undecodable \/ sample_request = JsonOther \/
   exists members, sample_request = JsonObject members /\
                   members_readable members = false).
Proof.
  apply (scrape_statuses (list call) recording (fun _ => Ok (py "<html>"))
                         (fun _ => sample_page) sample_request []).
  vm_compute. reflexivity.
Defined.

(** X11.  The month is not checked against the calendar: for every integer
    month [m] between -4300 and 4300, [scrape] computes [m - 1] and tries to
    select it on the month control, so month 0 selects -1 and month 13
    selects 12; a browser that refuses that selection is refused with
    [m - 1]. *)
Theorem month_is_not_validated (m : Z) :
  (Z.abs m < 4300)%Z ->
  py_int (str_of_int m) = Some m /\
  month_for_ssa (py_str (JInt m)) = Ok (str_of_int (m - 1)) /\
  (forall (page_content : unit -> result str) (html_parser : str -> node)
          (members : gmap str jvalue),
     members !! py "month" = Some (JInt m) ->
     members_readable members = true ->
     truthy (py_str (dict_get members (py "day"))) &&
     truthy (py_str (dict_get members (py "year"))) &&
     truthy (py_str (dict_get members (py "sex"))) = true ->
     scrape month_spy page_content html_parser (JsonObject members) tt =
     Ok {| status_code := 500;
           body := InternalError (PlaywrightError (str_of_int (m - 1))) |}).
Proof.
  intros Hm. pose proof (IntFacts.py_int_str_of_int m Hm) as E.
  pose proof (month_for_ssa_int m Hm) as Es.
  split; [exact E|]. split; [exact Es|].
  intros page_content html_parser members Hmonth Hr Hrest.
  assert (Em : dict_get members (py "month") = JInt m)
    by (unfold dict_get; now rewrite Hmonth).
  apply scrape_on_month_spy; [exact Hr | | now rewrite Em].
  rewrite Em. simpl py_str. rewrite str_of_int_truthy.
  apply andb_true_iff in Hrest as [Hrest Hs].
  apply andb_true_iff in Hrest as [Hd Hy].
  now rewrite Hd, Hy, Hs.
Qed.

Lemma month_is_not_validated_witness :
  scrape month_spy (fun _ => Ok (py "<html>")) (fun _ => sample_page)
         (JsonObject (<[py "month" := JInt 0]>
                      (<[py "day" := JInt 15]>
                       (<[py "year" := JInt 1960]>
                        (<[py "sex" := JStr (py "f")]> ∅))))) tt =
  Ok {| status_code := 500; body := InternalError (PlaywrightError (py "-1")) |}
  /\
  scrape month_spy (fun _ => Ok (py "<html>")) (fun _ => sample_page)
         (JsonObject (<[py "month" := JInt 13]>
                      (<[py "day" := JInt 15]>
                       (<[py "year" := JInt 1960]>
                        (<[py "sex" := JStr (py "f")]> ∅))))) tt =
  Ok {| status_code := 500; body := InternalError (PlaywrightError (py "12")) |}.
Proof.
  split.
  - apply (proj2 (proj2 (month_is_not_validated 0 ltac:(lia)))
                 (fun _ => Ok (py "<html>")) (fun _ => sample_page));
      vm_compute; reflexivity.
  - apply (proj2 (proj2 (month_is_not_validated 13 ltac:(lia)))
                 (fun _ => Ok (py "<html>")) (fun _ => sample_page));
      vm_compute; reflexivity.
Defined.

(** * Digits of other scripts *)

Module ScriptFacts.
Import DigitFacts FindallFacts ExactFacts.
Local Open Scope N_scope.

Lemma to_ascii_digit_decimal (c : N) :
  is_decimal c = true ->
  exists d, decimal_value c = Some d /\ d < 10 /\ to_ascii_digit c = 48 + d /\
            decimal_value (48 + d) = Some d.
Proof.
  intros (d & Hd & Hlt & _)%ascii_fold_decimal.
  exists d. unfold to_ascii_digit. rewrite Hd. repeat split; try assumption.
  unfold decimal_value.
  change decimal_zeros with (48 :: List.tl decimal_zeros). cbn [List.find].
  assert (E : (48 <=? 48 + d) && (48 + d <? 48 + 10) = true).
  { apply andb_true_iff. split; [apply N.leb_le | apply N.ltb_lt]; lia. }
  rewrite E. f_equal. lia.
Qed.

Lemma to_ascii_digit_other (c : N) :
  is_decimal c = false -> to_ascii_digit c = c.
Proof.
  unfold is_decimal, to_ascii_digit. now destruct (decimal_value c).
Qed.

Lemma to_ascii_digit_value (c : N) :
  decimal_value (to_ascii_digit c) = decimal_value c.
Proof.
  destruct (is_decimal c) eqn:E.
  - destruct (to_ascii_digit_decimal c E) as (d & Hd & _ & -> & Hv). congruence.
  - now rewrite to_ascii_digit_other.
Qed.

Lemma to_ascii_digit_is_decimal (c : N) :
  is_decimal (to_ascii_digit c) = is_decimal c.
Proof. unfold is_decimal. now rewrite to_ascii_digit_value. Qed.

Lemma to_ascii_digit_dot (c : N) : (to_ascii_digit c =? 46) = (c =? 46).
Proof.
  destruct (is_decimal c) eqn:E.
  - destruct (to_ascii_digit_decimal c E) as (d & _ & Hd & -> & _).
    destruct (c =? 46) eqn:Ec.
    + apply N.eqb_eq in Ec. subst. discriminate.
    + apply N.eqb_neq. lia.
  - now rewrite to_ascii_digit_other.
Qed.

Lemma letter_not_decimal (c : N) :
  is_ascii_letter c = true -> is_decimal c = false.
Proof.
  intros Hl. destruct (is_decimal c) eqn:E; [|reflexivity].
  unfold is_decimal in E. destruct (decimal_value c) as [d|] eqn:Hd;
    [|discriminate].
  pose proof (decimal_value_bound c d Hd).
  unfold is_ascii_letter in Hl.
  assert (Hc : c < 128).
  { apply orb_true_iff in Hl as [Hu|Hu]; apply andb_true_iff in Hu as [_ Hu];
      apply N.leb_le in Hu; lia. }
  pose proof (decimal_value_ascii c d Hd Hc).
  apply orb_true_iff in Hl as [Hu|Hu]; apply andb_true_iff in Hu as [Hu _];
    apply N.leb_le in Hu; lia.
Qed.

Lemma to_ascii_digit_letter (c : N) :
  is_ascii_letter (to_ascii_digit c) = is_ascii_letter c.
Proof.
  destruct (is_decimal c) eqn:E.
  - destruct (to_ascii_digit_decimal c E) as (d & _ & Hd & -> & _).
    destruct (is_ascii_letter c) eqn:El.
    + apply letter_not_decimal in El. congruence.
    + apply c_digit_not_letter. unfold is_c_digit.
      apply andb_true_iff. split; apply N.leb_le; lia.
  - now rewrite to_ascii_digit_other.
Qed.

Lemma span_to_ascii (s : str) :
  span is_decimal (List.map to_ascii_digit s) =
  (List.map to_ascii_digit (fst (span is_decimal s)),
   List.map to_ascii_digit (snd (span is_decimal s))).
Proof.
  induction s as [|c s IH]; [reflexivity|].
  cbn [List.map span]. rewrite to_ascii_digit_is_decimal.
  destruct (is_decimal c); [|reflexivity].
  cbn zeta. now rewrite IH.
Qed.

Lemma optional_dot_to_ascii (s : str) :
  optional_dot (List.map to_ascii_digit s) =
  (List.map to_ascii_digit (fst (optional_dot s)),
   List.map to_ascii_digit (snd (optional_dot s))).
Proof.
  destruct s as [|c s]; [reflexivity|].
  cbn [List.map optional_dot]. rewrite to_ascii_digit_dot.
  destruct (c =? 46); reflexivity.
Qed.

Lemma number_tail_to_ascii (s : str) :
  number_tail (List.map to_ascii_digit s) =
  (List.map to_ascii_digit (fst (number_tail s)),
   List.map to_ascii_digit (snd (number_tail s))).
Proof.
  unfold number_tail. rewrite span_to_ascii. cbn [fst snd].
  rewrite optional_dot_to_ascii. cbn [fst snd].
  rewrite span_to_ascii. cbn [fst snd].
  now rewrite !List.map_app.
Qed.

Lemma findall_to_ascii (s : str) :
  re_findall_numbers (List.map to_ascii_digit s) =
  List.map (List.map to_ascii_digit) (re_findall_numbers s).
Proof.
  funelim (re_findall_numbers s).
  - reflexivity.
  - cbn [List.map]. rewrite findall_cons, to_ascii_digit_is_decimal, Heq.
    rewrite number_tail_to_ascii. cbn [fst snd]. f_equal. assumption.
  - cbn [List.map]. rewrite findall_cons, to_ascii_digit_is_decimal, Heq.
    assumption.
Qed.

Lemma re_sub_letters_to_ascii (s : str) :
  re_sub_letters (List.map to_ascii_digit s) =
  List.map to_ascii_digit (re_sub_letters s).
Proof.
  induction s as [|c s IH]; [reflexivity|].
  cbn [List.map re_sub_letters List.filter]. rewrite to_ascii_digit_letter.
  fold (re_sub_letters (List.map to_ascii_digit s)).
  fold (re_sub_letters s). rewrite IH.
  destruct (is_ascii_letter c); reflexivity.
Qed.

Lemma unicode_digits_value_to_ascii_from (ds : str) (acc : Z) :
  List.fold_left
    (fun acc c => (10 * acc + Z.of_N (default 0%N (decimal_value c)))%Z)
    (List.map to_ascii_digit ds) acc =
  List.fold_left
    (fun acc c => (10 * acc + Z.of_N (default 0%N (decimal_value c)))%Z)
    ds acc.
Proof.
  revert acc. induction ds as [|c ds IH]; intros acc; [reflexivity|].
  cbn [List.map List.fold_left]. now rewrite to_ascii_digit_value, IH.
Qed.

Lemma number_value_to_ascii (a : str) :
  number_value (List.map to_ascii_digit a) = number_value a.
Proof.
  unfold number_value, int_digits, frac_digits.
  rewrite span_to_ascii. cbn [fst snd].
  rewrite optional_dot_to_ascii. cbn [fst snd].
  rewrite span_to_ascii. cbn [fst snd].
  rewrite <- List.map_app. unfold unicode_digits_value.
  now rewrite unicode_digits_value_to_ascii_from, List.length_map.
Qed.
End ScriptFacts.

(** X12.  Decimal digits of any script are read by their value: writing
    each digit of the text as the ASCII digit of the same value does not
    change the result. *)
Theorem parse_age_string_any_script (age_str : str) :
  parse_age_string (List.map to_ascii_digit age_str) =
  parse_age_string age_str.
Proof.
  rewrite !parse_age_string_eq. unfold numeric_substrings.
  rewrite !findall_strip, ScriptFacts.re_sub_letters_to_ascii,
    ScriptFacts.findall_to_ascii.
  destruct (re_findall_numbers (re_sub_letters age_str)) as [|a [|b [|c l]]];
    cbn [List.map]; try reflexivity;
    now rewrite ?ScriptFacts.number_value_to_ascii.
Qed.

(** The age 62 and 4 months written with Arabic-Indic digits. *)
Example parse_age_string_arabic_indic :
  parse_age_string ([1638; 1634]%N ++ py " and " ++ [1636%N] ++ py " months") =
  parse_age_string (py "62 and 4 months").
Proof. vm_compute. reflexivity. Qed.
